(** * tg-garena-bot: the polling-and-notification engine of [tg_garena_formatter.py]

    A shallow embedding of [load_data], [save_data], [api_check_unlocked],
    [format_notification] and [periodic_check].

    Python values that come out of [json.load] are a first-order datatype;
    the data file, the HTTP endpoint, the Telegram bot and the clock form an
    explicit world that is threaded through a state-and-exception monad, so
    that "raises", "is caught" and "the loop stops here" are statements
    about terms.  Library code the program calls ([json.loads], the chunks
    [json.dump] writes, [str] on an arbitrary object) and the behaviour of
    the outside world are Section variables: every theorem holds whatever
    they do. *)

From Stdlib Require Import ZArith String Ascii List Bool Lia.
From Stdlib Require Import Floats.SpecFloat DecimalString.
Import ListNotations.

Set Warnings "-register-all".

Open Scope string_scope.
Open Scope Z_scope.

(** ** Python values *)

(** What [json.load] can return, and what the program stores in [out]:
    [None], [bool], [int], [float], [str], [list], and [dict] with string
    keys.  A dict keeps its insertion order (the sweep iterates in it), so it
    is an association list; a Python dict has no repeated key, which
    [dict_wf] says where it matters. *)
Inductive value : Type :=
| PyNone
| PyBool (b : bool)
| PyInt (n : Z)
| PyFloat (x : spec_float)
| PyStr (s : string)
| PyList (l : list value)
| PyDict (kv : list (string * value)).

Definition nl : string := String (ascii_of_nat 10) EmptyString.

(** [bool(v)], and the test of [if v], [not v], [v or w]. *)
Definition truthy (v : value) : bool :=
  match v with
  | PyNone => false
  | PyBool b => b
  | PyInt n => negb (n =? 0)
  | PyFloat (S754_zero _) => false
  | PyFloat _ => true
  | PyStr EmptyString => false
  | PyStr _ => true
  | PyList [] => false
  | PyList _ => true
  | PyDict [] => false
  | PyDict _ => true
  end.

(** [v or w] *)
Definition py_or (v w : value) : value := if truthy v then v else w.

(** Lookup of a key in the entries of a dict. *)
Fixpoint dict_get (k : string) (kv : list (string * value)) : option value :=
  match kv with
  | [] => None
  | (k', v) :: rest => if String.eqb k k' then Some v else dict_get k rest
  end.

(** [d[k] = v]: a key already present keeps its place and takes the new
    value; a new key goes last. *)
Fixpoint dict_set (k : string) (v : value) (kv : list (string * value))
    : list (string * value) :=
  match kv with
  | [] => [(k, v)]
  | (k', v') :: rest =>
      if String.eqb k k' then (k', v) :: rest else (k', v') :: dict_set k v rest
  end.

(** [k in d] *)
Definition dict_mem (k : string) (kv : list (string * value)) : bool :=
  match dict_get k kv with Some _ => true | None => false end.

Definition dict_wf (kv : list (string * value)) : Prop := NoDup (map fst kv).

(** [v in ("ok", "success")]: [==] against two strings, which only a string
    can satisfy. *)
Definition is_ok_or_success (v : value) : bool :=
  match v with
  | PyStr s => String.eqb s "ok" || String.eqb s "success"
  | _ => false
  end.

(** ** Exceptions *)

Inductive exn_class : Type :=
| AttributeError | KeyError | TypeError | ValueError | OSError
| ClientError      (* whatever the HTTP session raises: timeout, connection, DNS *)
| TelegramError.   (* whatever [bot.send_message] raises *)

(** An exception object: its class and [str(e)]. *)
Record exn : Type := mkExn { exn_class_of : exn_class; exn_str : string }.

Inductive result (A : Type) : Type :=
| Ret (a : A)
| Raise (e : exn).
Arguments Ret {A} a.
Arguments Raise {A} e.

(** ** The world *)

(** [data.json]: missing, present but not openable (a directory, no
    permission), or present with a text. *)
Inductive file : Type :=
| FAbsent
| FUnreadable
| FContent (text : string).

(** One POST of [api_check_unlocked]: the URL, the token that follows
    [Bearer ] in the Authorization header, the account of the JSON body
    [{"account": account}], and the timeout. *)
Record request : Type := mkRequest {
  req_url : value;
  req_bearer : value;
  req_account : value;
  req_timeout : Z
}.

(** What the session does with a request: it raises (in [post] or in
    [resp.text()]), or there is a response with a status code and a body. *)
Inductive transport : Type :=
| NetFail (e : exn)
| NetResp (code : Z) (text : string).

Inductive event : Type :=
| EvPost (r : request)
| EvSend (chat_id : Z) (text : string) (delivered : bool).

Record World : Type := mkWorld {
  data_file : file;
  log : list event
}.

Definition M (A : Type) : Type := World -> result A * World.

Definition ret {A} (a : A) : M A := fun w => (Ret a, w).
Definition raise {A} (e : exn) : M A := fun w => (Raise e, w).
Definition bind {A B} (m : M A) (f : A -> M B) : M B :=
  fun w => match m w with
           | (Ret a, w') => f a w'
           | (Raise e, w') => (Raise e, w')
           end.
(** [try: m except Exception as e: h e] *)
Definition try_except {A} (m : M A) (h : exn -> M A) : M A :=
  fun w => match m w with
           | (Ret a, w') => (Ret a, w')
           | (Raise e, w') => h e w'
           end.

Notation "x <- m ;; k" := (bind m (fun x => k))
  (at level 61, m at next level, right associativity).
Notation "m ;;; k" := (bind m (fun _ => k))
  (at level 61, right associativity).

(** [for x in xs: body x] *)
Fixpoint for_each {X} (xs : list X) (body : X -> M unit) : M unit :=
  match xs with
  | [] => ret tt
  | x :: rest => body x ;;; for_each rest body
  end.

Definition emit (e : event) : M unit :=
  fun w => (Ret tt, mkWorld (data_file w) (log w ++ [e])).

(** ** The probe result *)

(** The dict [out] of [api_check_unlocked]; its four keys are fixed. *)
Record ProbeResult : Type := mkOut {
  ok : bool;
  unlocked : bool;
  raw : value;
  status : value
}.

Definition out0 : ProbeResult := mkOut false false PyNone PyNone.

(** Lines 68-74: the unlocked signal of a parsed body.  [None] when no
    branch assigns [out["unlocked"]], which then keeps its initial [False]. *)
Definition extract_unlocked (parsed : value) : option bool :=
  match parsed with
  | PyDict kv =>
      match dict_get "unlocked" kv with
      | Some u => Some (truthy u)
      | None =>
          match dict_get "status" kv with
          | Some st =>
              if is_ok_or_success st then
                let inner :=
                  py_or (match dict_get "data" kv with
                         | Some dv => dv
                         | None => PyNone
                         end) (PyDict []) in
                match inner with
                | PyDict ikv =>
                    match dict_get "unlocked" ikv with
                    | Some u => Some (truthy u)
                    | None => None
                    end
                | _ => None
                end
              else None
          | None => None
          end
      end
  | _ => None
  end.

(** ** Text helpers *)

(** A str as UTF-8 bytes, cut into its characters: what iterating over a
    Python str yields. *)
Definition is_continuation (a : ascii) : bool :=
  let n := nat_of_ascii a in (128 <=? n)%nat && (n <? 192)%nat.

Definition starts_with_continuation (s : string) : bool :=
  match s with
  | String b _ => is_continuation b
  | EmptyString => false
  end.

Fixpoint utf8_chars (s : string) : list string :=
  match s with
  | EmptyString => []
  | String a rest =>
      match utf8_chars rest with
      | c :: cs =>
          if starts_with_continuation rest then String a c :: cs
          else String a EmptyString :: c :: cs
      | [] => [String a EmptyString]
      end
  end.

Definition digit (n : Z) : ascii := ascii_of_nat (48 + Z.to_nat (n mod 10)).
Definition pad2 (n : Z) : string :=
  String (digit (n / 10)) (String (digit n) EmptyString).
Definition pad4 (n : Z) : string :=
  String (digit (n / 1000)) (String (digit (n / 100)) (pad2 n)).

(** The fields of a [datetime] that [format_notification] prints. *)
Record datetime : Type := mkDatetime {
  year : Z; month : Z; day : Z; hour : Z; minute : Z; second : Z
}.

(** [strftime("%H:%M:%S")] *)
Definition hms (t : datetime) : string :=
  pad2 (hour t) ++ ":" ++ pad2 (minute t) ++ ":" ++ pad2 (second t).

(** [strftime("%Y-%m-%d %H:%M:%S")] *)
Definition strftime_iso (t : datetime) : string :=
  pad4 (year t) ++ "-" ++ pad2 (month t) ++ "-" ++ pad2 (day t) ++ " " ++ hms t.

(** [strftime("%d/%m/%Y %H:%M:%S")] *)
Definition strftime_dmy (t : datetime) : string :=
  pad2 (day t) ++ "/" ++ pad2 (month t) ++ "/" ++ pad4 (year t) ++ " " ++ hms t.

Definition format_notification (account : string) (unlocked : bool)
    (check_dt : datetime) : string :=
  let iso_ts := strftime_iso check_dt in
  let ddmmyy := strftime_dmy check_dt in
  let status_text :=
    if unlocked then "Tài khoản đã mở khoá" else "Tài khoản bị cấm" in
  "🔔 *THÔNG BÁO*" ++ nl ++
  "📝 *Nội dung:* 🔎 *KIỂM TRA GARENA*" ++ nl ++
  "📛 *Tên tài khoản:* `" ++ account ++ "`" ++ nl ++
  "📌 *Trạng thái:* *" ++ status_text ++ "*" ++ nl ++
  "⏱️ `" ++ iso_ts ++ "`" ++ nl ++
  "🕒 *Thời gian:* " ++ ddmmyy ++ nl.

(** The text a sequence of written chunks leaves in a file. *)
Definition join (chunks : list string) : string :=
  fold_right append EmptyString chunks.

(** The requests posted and the messages handed to the bot, in order. *)
Definition posts (lg : list event) : list request :=
  flat_map (fun e => match e with EvPost r => [r] | _ => [] end) lg.

Definition sends (lg : list event) : list (Z * string) :=
  flat_map (fun e => match e with EvSend n t _ => [(n, t)] | _ => [] end) lg.

(** The accounts of a subscriber's entry in [chats], when the entry is a
    mapping whose [accounts], if present, is a list. *)
Definition subscriber_accounts (cfg : value) : option (list value) :=
  match cfg with
  | PyDict ckv =>
      match dict_get "accounts" ckv with
      | None => Some []
      | Some (PyList l) => Some l
      | Some _ => None
      end
  | _ => None
  end.

(** ** A reference JSON codec

    An executable instance of [json.loads] and of the chunks of
    [json.dump(..., ensure_ascii=False, indent=2)] on the fragment the
    scenarios below use: [null], [true], [false], integers, strings without
    escapes, arrays and objects.  The theorems of the development do not
    depend on it; it instantiates the library in their concrete instances. *)
Module MiniJson.

Definition dq : ascii := ascii_of_nat 34.

(** Writes JSON text with ['] for the string delimiter. *)
Fixpoint js (s : string) : string :=
  match s with
  | EmptyString => EmptyString
  | String c r => String (if Ascii.eqb c "'" then dq else c) (js r)
  end.

Definition is_ws (c : ascii) : bool :=
  Ascii.eqb c " " || Ascii.eqb c (ascii_of_nat 10)
  || Ascii.eqb c (ascii_of_nat 13) || Ascii.eqb c (ascii_of_nat 9).

Definition is_digit (c : ascii) : bool :=
  let n := nat_of_ascii c in (48 <=? n)%nat && (n <=? 57)%nat.

Fixpoint skip_ws (s : string) : string :=
  match s with
  | String c r => if is_ws c then skip_ws r else s
  | EmptyString => s
  end.

Fixpoint strip_prefix (p s : string) : option string :=
  match p, s with
  | EmptyString, _ => Some s
  | String a p', String b s' => if Ascii.eqb a b then strip_prefix p' s' else None
  | _, EmptyString => None
  end.

(** The digits at the head of [s], as a number, and what follows them. *)
Fixpoint take_digits (acc : Z) (s : string) : Z * string :=
  match s with
  | String c r =>
      if is_digit c then take_digits (10 * acc + (Z.of_nat (nat_of_ascii c) - 48)) r
      else (acc, s)
  | EmptyString => (acc, s)
  end.

Definition starts_fraction (s : string) : bool :=
  match s with
  | String c _ => Ascii.eqb c "." || Ascii.eqb c "e" || Ascii.eqb c "E"
  | EmptyString => false
  end.

(** An integer without sign: [0], or digits that do not start with [0]. *)
Definition parse_nat (s : string) : option (Z * string) :=
  match s with
  | String c r =>
      if Ascii.eqb c "0" then
        if starts_fraction r then None else Some (0, r)
      else if is_digit c then
        let '(n, r') := take_digits 0 s in
        if starts_fraction r' then None else Some (n, r')
      else None
  | EmptyString => None
  end.

(** The characters up to the closing quote; escapes and control characters
    are outside the fragment. *)
Fixpoint parse_string_body (s : string) : option (string * string) :=
  match s with
  | EmptyString => None
  | String c r =>
      if Ascii.eqb c dq then Some (EmptyString, r)
      else if Ascii.eqb c "\" || (nat_of_ascii c <? 32)%nat then None
      else match parse_string_body r with
           | Some (t, r') => Some (String c t, r')
           | None => None
           end
  end.

Fixpoint parse_value (fuel : nat) (s : string) : option (value * string) :=
  match fuel with
  | O => None
  | S f =>
      match skip_ws s with
      | EmptyString => None
      | String c r as s' =>
          if Ascii.eqb c "{" then
            match skip_ws r with
            | String "}" r' => Some (PyDict [], r')
            | r' => parse_members f [] r'
            end
          else if Ascii.eqb c "[" then
            match skip_ws r with
            | String "]" r' => Some (PyList [], r')
            | r' => parse_elems f [] r'
            end
          else if Ascii.eqb c dq then
            match parse_string_body r with
            | Some (t, r') => Some (PyStr t, r')
            | None => None
            end
          else if Ascii.eqb c "-" then
            match parse_nat r with
            | Some (n, r') => Some (PyInt (- n), r')
            | None => None
            end
          else if is_digit c then
            match parse_nat s' with
            | Some (n, r') => Some (PyInt n, r')
            | None => None
            end
          else
            match strip_prefix "null" s', strip_prefix "true" s',
                  strip_prefix "false" s' with
            | Some r', _, _ => Some (PyNone, r')
            | _, Some r', _ => Some (PyBool true, r')
            | _, _, Some r' => Some (PyBool false, r')
            | _, _, _ => None
            end
      end
  end
with parse_elems (fuel : nat) (acc : list value) (s : string)
    : option (value * string) :=
  match fuel with
  | O => None
  | S f =>
      match parse_value f s with
      | Some (v, r) =>
          match skip_ws r with
          | String "," r' => parse_elems f (acc ++ [v]) r'
          | String "]" r' => Some (PyList (acc ++ [v]), r')
          | _ => None
          end
      | None => None
      end
  end
with parse_members (fuel : nat) (acc : list (string * value)) (s : string)
    : option (value * string) :=
  match fuel with
  | O => None
  | S f =>
      match strip_prefix (String dq EmptyString) (skip_ws s) with
      | Some r =>
          match parse_string_body r with
          | Some (k, r1) =>
              match skip_ws r1 with
              | String ":" r2 =>
                  match parse_value f r2 with
                  | Some (v, r3) =>
                      match skip_ws r3 with
                      | String "," r4 => parse_members f (dict_set k v acc) r4
                      | String "}" r4 => Some (PyDict (dict_set k v acc), r4)
                      | _ => None
                      end
                  | None => None
                  end
              | _ => None
              end
          | None => None
          end
      | None => None
      end
  end.

Definition loads (text : string) : option value :=
  match parse_value (2 * String.length text + 2) text with
  | Some (v, rest) =>
      match skip_ws rest with
      | EmptyString => Some v
      | _ => None
      end
  | None => None
  end.

Definition quote (s : string) : string :=
  String dq (s ++ String dq EmptyString).

Fixpoint spaces (n : nat) : string :=
  match n with
  | O => EmptyString
  | S m => String " " (spaces m)
  end.

Definition newline_indent (level : nat) : string := nl ++ spaces (2 * level).

(** The chunks of the encoder at nesting depth [level]. *)
Fixpoint iterencode_at (level : nat) (v : value) : list string :=
  match v with
  | PyNone => ["null"]
  | PyBool true => ["true"]
  | PyBool false => ["false"]
  | PyInt n => [NilZero.string_of_int (Z.to_int n)]
  | PyFloat _ => ["NaN"]
  | PyStr s => [quote s]
  | PyList [] => ["[]"]
  | PyList (x :: xs) =>
      ("[" ++ newline_indent (S level)) :: iterencode_at (S level) x
      ++ (fix rest (l : list value) : list string :=
            match l with
            | [] => []
            | y :: l' =>
                ("," ++ newline_indent (S level)) :: iterencode_at (S level) y
                ++ rest l'
            end) xs
      ++ [newline_indent level; "]"]
  | PyDict [] => ["{}"]
  | PyDict ((k, x) :: kvs) =>
      "{" :: (newline_indent (S level) ++ quote k) :: ": "
      :: iterencode_at (S level) x
      ++ (fix rest (l : list (string * value)) : list string :=
            match l with
            | [] => []
            | (k', y) :: l' =>
                ("," ++ newline_indent (S level) ++ quote k') :: ": "
                :: iterencode_at (S level) y ++ rest l'
            end) kvs
      ++ [newline_indent level; "}"]
  end.

Definition iterencode (v : value) : list string := iterencode_at 0 v.

(** [int(s)] on an optional minus sign and decimal digits. *)
Definition int_of_str (s : string) : option Z :=
  match s with
  | String "-" r =>
      match r with
      | String c _ =>
          if is_digit c then
            match take_digits 0 r with
            | (n, EmptyString) => Some (- n)
            | _ => None
            end
          else None
      | EmptyString => None
      end
  | String c _ =>
      if is_digit c then
        match take_digits 0 s with
        | (n, EmptyString) => Some n
        | _ => None
        end
      else None
  | EmptyString => None
  end.

(** [str(v)] of the scalars that are not a str. *)
Definition str_of_other (v : value) : string :=
  match v with
  | PyNone => "None"
  | PyBool true => "True"
  | PyBool false => "False"
  | PyInt n => NilZero.string_of_int (Z.to_int n)
  | _ => "<object>"
  end.

End MiniJson.

(** ** The rules of the unlocked signal *)

(** Rule 1 applies to [parsed]: a mapping with a key [unlocked]. *)
Definition rule1 (parsed u : value) : Prop :=
  exists kv, parsed = PyDict kv /\ dict_get "unlocked" kv = Some u.

(** Rule 2 applies to [parsed]: a mapping without a key [unlocked], whose
    [status] is ["ok"] or ["success"] and whose [data] is a mapping with a
    key [unlocked]. *)
Definition rule2 (parsed u : value) : Prop :=
  exists kv st ikv,
    parsed = PyDict kv
    /\ dict_get "unlocked" kv = None
    /\ dict_get "status" kv = Some (PyStr st)
    /\ (st = "ok" \/ st = "success")
    /\ dict_get "data" kv = Some (PyDict ikv)
    /\ dict_get "unlocked" ikv = Some u.

(** The body of the parse-priority scenario. *)
Definition priority_body : value :=
  PyDict [("unlocked", PyBool false); ("status", PyStr "ok");
          ("data", PyDict [("unlocked", PyBool true)])].

(** ** Scenarios

    Concrete worlds on which the program is run: the store of the
    specification's scenario (subscriber [1001] tracking [gamer123], the
    cache already saying [true] for it), a store with two accounts, and a few
    endpoints, bots and disks. *)
Module Scenario.

Definition url : value := PyStr "https://api.example/check".
Definition token : value := PyStr "secret".
Definition gamer : value := PyStr "gamer123".

Definition store_text : string :=
  MiniJson.js
    "{'chats': {'1001': {'accounts': ['gamer123'], 'interval_min': 5}},
      'api': {'url': 'https://api.example/check', 'token': 'secret'},
      'last_seen_unlocked': {'gamer123': true}, 'include_raw': false}".

Definition store : value :=
  PyDict [("chats",
           PyDict [("1001", PyDict [("accounts", PyList [gamer]);
                                    ("interval_min", PyInt 5)])]);
          ("api", PyDict [("url", url); ("token", token)]);
          ("last_seen_unlocked", PyDict [("gamer123", PyBool true)]);
          ("include_raw", PyBool false)].

(** Two accounts of one subscriber. *)
Definition chats2 : list (string * value) :=
  [("1001", PyDict [("accounts", PyList [PyStr "alpha"; PyStr "beta"]);
                    ("interval_min", PyInt 5)])].

Definition store2 : list (string * value) :=
  [("chats", PyDict chats2);
   ("api", PyDict [("url", url); ("token", token)]);
   ("last_seen_unlocked", PyDict []);
   ("include_raw", PyBool false)].

Definition store2_text : string :=
  MiniJson.js
    "{'chats': {'1001': {'accounts': ['alpha', 'beta'], 'interval_min': 5}},
      'api': {'url': 'https://api.example/check', 'token': 'secret'},
      'last_seen_unlocked': {}, 'include_raw': false}".

Definition world_of (text : string) : World := mkWorld (FContent text) [].

(** Endpoints: one that always answers [200 {"unlocked": true}], one that
    answers [404] with an empty JSON object, one that is down, one that is
    down for the first request only, and the body of the parse-priority
    scenario. *)
Definition net_unlocked : list event -> request -> transport :=
  fun _ _ => NetResp 200 (MiniJson.js "{'unlocked': true}").

Definition net_404 : list event -> request -> transport :=
  fun _ _ => NetResp 404 "{}".

Definition net_down : list event -> request -> transport :=
  fun _ _ => NetFail (mkExn ClientError "Cannot connect to host").

Definition net_down_once : list event -> request -> transport :=
  fun lg r => match lg with
              | [] => net_down lg r
              | _ => net_unlocked lg r
              end.

Definition net_priority : list event -> request -> transport :=
  fun _ _ =>
    NetResp 200
      (MiniJson.js "{'unlocked': false, 'status': 'ok', 'data': {'unlocked': true}}").

(** Bots: one that delivers, one that refuses every message. *)
Definition bot_ok : list event -> Z -> string -> option exn :=
  fun _ _ _ => None.

Definition bot_blocked : list event -> Z -> string -> option exn :=
  fun _ _ _ => Some (mkExn TelegramError "Forbidden: bot was blocked by the user").

Definition clock : list event -> datetime :=
  fun _ => mkDatetime 2025 3 7 9 5 0.

(** Disks: one that takes every write, one that is full, one that fails
    once the file holds twenty bytes. *)
Definition disk_ok : string -> string -> bool := fun _ _ => false.
Definition disk_full : string -> string -> bool := fun _ _ => true.
Definition disk_20 : string -> string -> bool :=
  fun text _ => (20 <=? String.length text)%nat.

Definition message (acc : string) : string :=
  format_notification acc true (clock []).

End Scenario.

(** [d["last_seen_unlocked"][account]], the cache's value for an account. *)
Definition cache_entry (d : value) (account : string) : option value :=
  match d with
  | PyDict kv =>
      match dict_get "last_seen_unlocked" kv with
      | Some (PyDict c) => dict_get account c
      | _ => None
      end
  | _ => None
  end.

(** ** The program *)

Definition default_data : value :=
  PyDict [("chats", PyDict []);
          ("api", PyDict [("url", PyStr EmptyString); ("token", PyStr EmptyString)]);
          ("last_seen_unlocked", PyDict []);
          ("include_raw", PyBool false)].

(** [os.path.exists(DATA_FILE)] *)
Definition path_exists : M bool :=
  fun w => (Ret (match data_file w with FAbsent => false | _ => true end), w).

(** [v.get(k, dflt)]: a method of dicts only. *)
Definition py_get (v : value) (k : string) (dflt : value) : M value :=
  match v with
  | PyDict kv => ret (match dict_get k kv with Some x => x | None => dflt end)
  | _ => raise (mkExn AttributeError "object has no attribute 'get'")
  end.

(** [v[k]] for a string [k]. *)
Definition py_getitem (v : value) (k : string) : M value :=
  match v with
  | PyDict kv =>
      match dict_get k kv with
      | Some x => ret x
      | None => raise (mkExn KeyError k)
      end
  | _ => raise (mkExn TypeError "not subscriptable by a str")
  end.

(** [v.items()] *)
Definition py_items (v : value) : M (list (string * value)) :=
  match v with
  | PyDict kv => ret kv
  | _ => raise (mkExn AttributeError "object has no attribute 'items'")
  end.

(** The elements [for x in v] runs over. *)
Definition py_iter (v : value) : M (list value) :=
  match v with
  | PyList l => ret l
  | PyStr s => ret (map PyStr (utf8_chars s))
  | PyDict kv => ret (map (fun p => PyStr (fst p)) kv)
  | _ => raise (mkExn TypeError "object is not iterable")
  end.

Section Program.

(** [json.loads] / [json.load]: [None] when it raises. *)
Variable json_loads : string -> option value.
(** The chunks [json.dump(d, f, ensure_ascii=False, indent=2)] hands to
    [f.write], in order. *)
Variable json_iterencode : value -> list string.
(** Whether the disk refuses to take the given bytes after the given file
    content (disk full, quota, I/O error). *)
Variable write_fault : string -> string -> bool.
(** The HTTP endpoint, the Telegram bot and the clock; each may depend on
    everything that happened before. *)
Variable net : list event -> request -> transport.
Variable bot_send : list event -> Z -> string -> option exn.
Variable now : list event -> datetime.
(** [int(s)] of a str, [None] for [ValueError]; and [str(v)] of a value
    that is not a str. *)
Variable int_of_str : string -> option Z.
Variable str_of_other : value -> string.

(** What [{account}] prints in an f-string. *)
Definition py_format (v : value) : string :=
  match v with
  | PyStr s => s
  | _ => str_of_other v
  end.

(** [with open(DATA_FILE, "r") as f: return json.load(f)] *)
Definition read_json : M value :=
  fun w =>
    match data_file w with
    | FContent text =>
        match json_loads text with
        | Some v => (Ret v, w)
        | None => (Raise (mkExn ValueError "JSONDecodeError"), w)
        end
    | _ => (Raise (mkExn OSError "cannot open data.json"), w)
    end.

Definition load_data : M value :=
  e <- path_exists ;;
  if negb e then ret default_data
  else try_except read_json (fun _ => ret default_data).

(** [open(DATA_FILE, "w")]: the file is created or truncated. *)
Definition open_w : M unit :=
  fun w =>
    match data_file w with
    | FUnreadable => (Raise (mkExn OSError "cannot open data.json"), w)
    | _ => (Ret tt, mkWorld (FContent EmptyString) (log w))
    end.

(** [f.write(chunk)]: the file object of [open] is buffered; the chunk
    joins the buffer, nothing reaches the file, and the call returns. *)
Definition write_chunk (buffer chunk : string) : string := buffer ++ chunk.

(** [json.dump(d, f, ensure_ascii=False, indent=2)]: one [f.write] for each
    chunk of the encoder. *)
Definition json_dump (d : value) (buffer : string) : string :=
  fold_left write_chunk (json_iterencode d) buffer.

(** Emptying the buffer: its bytes go to the file one after the other,
    until the disk refuses one; that raises [OSError] and leaves the file
    with the bytes taken so far, wherever in a chunk that is. *)
Fixpoint flush_buffer (buffer : string) (w : World) : result unit * World :=
  match buffer with
  | EmptyString => (Ret tt, w)
  | String b rest =>
      match data_file w with
      | FContent text =>
          if write_fault text (String b EmptyString)
          then (Raise (mkExn OSError "write failed"), w)
          else flush_buffer rest
                 (mkWorld (FContent (text ++ String b EmptyString)) (log w))
      | _ => (Raise (mkExn OSError "file is not open"), w)
      end
  end.

(** Leaving the [with] block closes the file, which empties the buffer. *)
Definition close_file (buffer : string) : M unit := flush_buffer buffer.

(** [with open(DATA_FILE, "w") as f: json.dump(d, f, ...)].  For a state
    larger than the buffer the file object empties its buffer earlier, at
    points the platform chooses; [save_data_flushing] below is that variant,
    and [flush_policy_irrelevant] shows that it ends the same way with the
    same file. *)
Definition save_data (d : value) : M unit :=
  open_w ;;; close_file (json_dump d EmptyString).

(** The same with a buffer that is also emptied after any write the
    [policy] picks. *)
Fixpoint dump_flushing (policy : string -> bool) (chunks : list string)
    (buffer : string) : M unit :=
  match chunks with
  | [] => close_file buffer
  | c :: rest =>
      let buffer' := write_chunk buffer c in
      if policy buffer'
      then flush_buffer buffer' ;;; dump_flushing policy rest EmptyString
      else dump_flushing policy rest buffer'
  end.

Definition save_data_flushing (policy : string -> bool) (d : value) : M unit :=
  open_w ;;; dump_flushing policy (json_iterencode d) EmptyString.

(** [session.post(...)] followed by [resp.text()]. *)
Definition session_post (r : request) : M (Z * string) :=
  fun w =>
    let w' := mkWorld (data_file w) (log w ++ [EvPost r]) in
    match net (log w) r with
    | NetFail e => (Raise e, w')
    | NetResp code text => (Ret (code, text), w')
    end.

Definition api_check_unlocked (base_url bearer account : value)
    : M ProbeResult :=
  let out := out0 in
  if negb (truthy base_url) || negb (truthy bearer) then
    ret (mkOut (ok out) (unlocked out) (raw out) (PyStr "not-configured"))
  else
    try_except
      (resp <- session_post (mkRequest base_url bearer account 20) ;;
       let '(code, text) := resp in
       let parsed :=
         match json_loads text with Some p => p | None => PyNone end in
       ret (mkOut (code <? 400)
                  (match extract_unlocked parsed with
                   | Some u => u
                   | None => unlocked out
                   end)
                  (py_or parsed (PyStr text))
                  (PyInt code)))
      (fun e =>
         ret (mkOut (ok out) (unlocked out) (PyStr (exn_str e)) (PyStr "error"))).

(** [app.bot.send_message(chat_id=..., text=..., parse_mode="Markdown")] *)
Definition send_message (chat_id : Z) (text : string) : M unit :=
  fun w =>
    match bot_send (log w) chat_id text with
    | None =>
        (Ret tt, mkWorld (data_file w) (log w ++ [EvSend chat_id text true]))
    | Some e =>
        (Raise e, mkWorld (data_file w) (log w ++ [EvSend chat_id text false]))
    end.

(** [datetime.now(TZ)] *)
Definition datetime_now : M datetime := fun w => (Ret (now (log w)), w).

(** [int(chat_id)] *)
Definition py_int (s : string) : M Z :=
  match int_of_str s with
  | Some n => ret n
  | None => raise (mkExn ValueError "invalid literal for int()")
  end.

(** The body of the inner loop of [periodic_check] (lines 152-156). *)
Definition check_account (base_url bearer : value) (chat_id : string)
    (acc : value) : M unit :=
  res <- api_check_unlocked base_url bearer acc ;;
  if unlocked res then
    check_time <- datetime_now ;;
    let txt := format_notification (py_format acc) true check_time in
    n <- py_int chat_id ;;
    send_message n txt
  else ret tt.

(** Lines 150-156: the two nested loops. *)
Definition sweep (base_url bearer : value) (items : list (string * value))
    : M unit :=
  for_each items (fun item =>
    accounts <- py_get (snd item) "accounts" (PyList []) ;;
    accs <- py_iter accounts ;;
    for_each accs (check_account base_url bearer (fst item))).

(** Lines 146-156: [periodic_check] after [d = load_data()]. *)
Definition periodic_check_on (d : value) : M unit :=
  api <- py_get d "api" (PyDict []) ;;
  base_url <- py_get api "url" PyNone ;;
  bearer <- py_get api "token" PyNone ;;
  if negb (truthy base_url) || negb (truthy bearer) then ret tt
  else
    chats <- py_getitem d "chats" ;;
    items <- py_items chats ;;
    sweep base_url bearer items.

Definition periodic_check : M unit :=
  d <- load_data ;;
  periodic_check_on d.

(** The bytes of [data] that reach a file holding [text] before the disk
    refuses one. *)
Fixpoint written (text data : string) : string :=
  match data with
  | EmptyString => EmptyString
  | String b rest =>
      if write_fault text (String b EmptyString) then EmptyString
      else String b (written (text ++ String b EmptyString) rest)
  end.

(** *** The sweep, as the specification words it

    The (subscriber, account) pairs of [chats] in iteration order, for
    entries of the expected shape; and the log of a sweep that visits every
    pair once: one probe per pair, followed by one notification when the
    probe reports unlocked. *)
Fixpoint sweep_pairs (items : list (string * value)) : option (list (Z * value)) :=
  match items with
  | [] => Some []
  | (chat, cfg) :: rest =>
      match int_of_str chat, subscriber_accounts cfg, sweep_pairs rest with
      | Some n, Some accs, Some ps => Some (map (pair n) accs ++ ps)%list
      | _, _, _ => None
      end
  end.

Definition probe_says_unlocked (t : transport) : bool :=
  match t with
  | NetFail _ => false
  | NetResp _ text =>
      match extract_unlocked
              (match json_loads text with Some p => p | None => PyNone end) with
      | Some u => u
      | None => false
      end
  end.

Fixpoint sweep_spec_log (base_url bearer : value) (pairs : list (Z * value))
    (lg : list event) : list event :=
  match pairs with
  | [] => lg
  | (n, acc) :: rest =>
      let r := mkRequest base_url bearer acc 20 in
      let lg1 := (lg ++ [EvPost r])%list in
      sweep_spec_log base_url bearer rest
        (if probe_says_unlocked (net lg r)
         then (lg1 ++ [EvSend n (format_notification (py_format acc) true
                                   (now lg1)) true])%list
         else lg1)
  end.

(** A computation that leaves [data.json] as it found it. *)
Definition keeps_file {A} (m : M A) : Prop :=
  forall w, data_file (snd (m w)) = data_file w.

(** ** The probe *)

Lemma bind_ret {A B} (a : A) (f : A -> M B) (w : World) :
  bind (ret a) f w = f a w.
Proof. reflexivity. Qed.

Ltac run_monad :=
  unfold bind, try_except, ret, raise; cbn [fst snd].

Lemma api_check_unlocked_unconfigured (base_url bearer account : value) (w : World) :
  truthy base_url = false \/ truthy bearer = false ->
  api_check_unlocked base_url bearer account w
  = (Ret (mkOut false false PyNone (PyStr "not-configured")), w).
Proof.
  intros H. unfold api_check_unlocked.
  destruct H as [H | H]; rewrite H; cbn [negb orb];
    [ | rewrite orb_true_r ]; reflexivity.
Qed.

(** What a configured probe does, by the outcome of the transport. *)
Lemma api_check_unlocked_configured (base_url bearer account : value) (w : World) :
  truthy base_url = true -> truthy bearer = true ->
  let r := mkRequest base_url bearer account 20 in
  api_check_unlocked base_url bearer account w
  = (Ret match net (log w) r with
         | NetFail e => mkOut false false (PyStr (exn_str e)) (PyStr "error")
         | NetResp code text =>
             let parsed :=
               match json_loads text with Some p => p | None => PyNone end in
             mkOut (code <? 400)
                   (match extract_unlocked parsed with
                    | Some u => u
                    | None => false
                    end)
                   (py_or parsed (PyStr text)) (PyInt code)
         end,
     mkWorld (data_file w) (log w ++ [EvPost r])).
Proof.
  intros Hu Hb r. unfold api_check_unlocked.
  rewrite Hu, Hb. cbn [negb orb]. run_monad. unfold session_post.
  fold r. destruct (net (log w) r); reflexivity.
Qed.

(** C6.  When the URL or the token is the empty string the probe returns at
    once with status ["not-configured"] and [ok = False], and the world is
    the one it started in: no request was posted. *)
Theorem probe_not_configured (base_url bearer account : value) (w : World) :
  base_url = PyStr EmptyString \/ bearer = PyStr EmptyString ->
  exists out,
    api_check_unlocked base_url bearer account w = (Ret out, w)
    /\ status out = PyStr "not-configured"
    /\ ok out = false.
Proof.
  intros H. eexists. split.
  - apply api_check_unlocked_unconfigured.
    destruct H as [-> | ->]; [left | right]; reflexivity.
  - split; reflexivity.
Qed.

(** C5.  The probe never raises: in every world it returns a result; and
    when the transport fails with an exception [e], that result has
    [ok = False], status ["error"] and [raw = str(e)]. *)
Theorem probe_never_raises (base_url bearer account : value) (w : World) :
  (exists out, fst (api_check_unlocked base_url bearer account w) = Ret out)
  /\ (forall e,
        truthy base_url = true -> truthy bearer = true ->
        net (log w) (mkRequest base_url bearer account 20) = NetFail e ->
        exists out,
          fst (api_check_unlocked base_url bearer account w) = Ret out
          /\ ok out = false
          /\ status out = PyStr "error"
          /\ raw out = PyStr (exn_str e)).
Proof.
  split.
  - destruct (truthy base_url) eqn:Hu; [destruct (truthy bearer) eqn:Hb | ].
    + rewrite api_check_unlocked_configured by assumption. eexists; reflexivity.
    + rewrite api_check_unlocked_unconfigured by (right; assumption).
      eexists; reflexivity.
    + rewrite api_check_unlocked_unconfigured by (left; assumption).
      eexists; reflexivity.
  - intros e Hu Hb Hnet.
    rewrite api_check_unlocked_configured by assumption.
    cbv zeta. rewrite Hnet. eexists. repeat split.
Qed.

(** C8.  [ok] is true exactly when the transport succeeds with a status
    code below 400: on a response with code [code], [ok] is true iff
    [code < 400]; on a transport failure, [ok] is false. *)
Theorem probe_ok_iff_below_400 (base_url bearer account : value) (w : World) :
  truthy base_url = true -> truthy bearer = true ->
  forall out, fst (api_check_unlocked base_url bearer account w) = Ret out ->
  match net (log w) (mkRequest base_url bearer account 20) with
  | NetResp code _ => ok out = true <-> code < 400
  | NetFail _ => ok out = false
  end.
Proof.
  intros Hu Hb out.
  rewrite api_check_unlocked_configured by assumption. cbv zeta. cbn [fst].
  destruct (net (log w) _) as [e | code text]; intros [= <-]; cbn [ok].
  - reflexivity.
  - apply Z.ltb_lt.
Qed.

(** C10.  On a response whose body parses, [raw] is the parsed value when
    that value is truthy, and the text of the response when it is falsy. *)
Theorem probe_raw_falsy_is_text (base_url bearer account : value) (w : World)
    (code : Z) (text : string) (parsed : value) :
  truthy base_url = true -> truthy bearer = true ->
  net (log w) (mkRequest base_url bearer account 20) = NetResp code text ->
  json_loads text = Some parsed ->
  exists out,
    fst (api_check_unlocked base_url bearer account w) = Ret out
    /\ (truthy parsed = false -> raw out = PyStr text)
    /\ (truthy parsed = true -> raw out = parsed).
Proof.
  intros Hu Hb Hnet Hparse.
  rewrite api_check_unlocked_configured by assumption. cbv zeta.
  rewrite Hnet, Hparse. eexists. split; [reflexivity | ].
  cbn [raw]. unfold py_or. split; intros ->; reflexivity.
Qed.

(** *** The unlocked signal *)

Lemma extract_unlocked_rule1 (parsed u : value) :
  rule1 parsed u -> extract_unlocked parsed = Some (truthy u).
Proof.
  intros (kv & -> & H). cbn. rewrite H. reflexivity.
Qed.

Lemma dict_get_nonempty (k : string) (kv : list (string * value)) (v : value) :
  dict_get k kv = Some v -> truthy (PyDict kv) = true.
Proof.
  destruct kv; [discriminate | reflexivity].
Qed.

Lemma extract_unlocked_rule2 (parsed u : value) :
  rule2 parsed u -> extract_unlocked parsed = Some (truthy u).
Proof.
  intros (kv & st & ikv & -> & Hno & Hst & Hok & Hdata & Hin).
  cbn. rewrite Hno, Hst, Hdata.
  assert (is_ok_or_success (PyStr st) = true) as ->
    by (destruct Hok as [-> | ->]; reflexivity).
  unfold py_or. rewrite (dict_get_nonempty _ _ _ Hin), Hin. reflexivity.
Qed.

Lemma is_ok_or_success_inv (v : value) :
  is_ok_or_success v = true ->
  exists st, v = PyStr st /\ (st = "ok" \/ st = "success").
Proof.
  destruct v; try discriminate. cbn. intros H.
  exists s. split; [reflexivity | ].
  apply orb_true_iff in H. destruct H as [H | H];
    apply String.eqb_eq in H; auto.
Qed.

Lemma extract_unlocked_inv (parsed : value) (b : bool) :
  extract_unlocked parsed = Some b ->
  exists u, truthy u = b /\ (rule1 parsed u \/ rule2 parsed u).
Proof.
  destruct parsed as [ | | | | | | kv]; try discriminate. cbn.
  destruct (dict_get "unlocked" kv) as [u | ] eqn:Hu.
  - intros [= <-]. exists u. split; [reflexivity | ].
    left. exists kv. auto.
  - destruct (dict_get "status" kv) as [st | ] eqn:Hst; [ | discriminate].
    destruct (is_ok_or_success st) eqn:Hok; [ | discriminate].
    apply is_ok_or_success_inv in Hok. destruct Hok as (s & -> & Hs).
    destruct (dict_get "data" kv) as [dv | ] eqn:Hd; unfold py_or.
    + destruct (truthy dv) eqn:Ht.
      * destruct dv as [ | | | | | | ikv]; try discriminate.
        destruct (dict_get "unlocked" ikv) as [u | ] eqn:Hi; [ | discriminate].
        intros [= <-]. exists u. split; [reflexivity | ].
        right. exists kv, s, ikv. auto 10.
      * cbn. discriminate.
    + cbn. discriminate.
Qed.

(** C4.  On a response whose body parses to [parsed], the [unlocked] field
    follows rule 1 when it applies, whatever [status] and [data] say; rule 2
    only for a mapping without a top-level [unlocked]; and is false when
    neither applies.  For the body
    [{"unlocked": false, "status": "ok", "data": {"unlocked": true}}]
    it is false. *)
Theorem probe_unlocked_priority (base_url bearer account : value) (w : World)
    (code : Z) (text : string) (parsed : value) :
  truthy base_url = true -> truthy bearer = true ->
  net (log w) (mkRequest base_url bearer account 20) = NetResp code text ->
  json_loads text = Some parsed ->
  exists out,
    fst (api_check_unlocked base_url bearer account w) = Ret out
    /\ (forall u, rule1 parsed u -> unlocked out = truthy u)
    /\ (forall u, rule2 parsed u -> unlocked out = truthy u)
    /\ ((forall u, ~ rule1 parsed u) -> (forall u, ~ rule2 parsed u) ->
        unlocked out = false)
    /\ (parsed = priority_body -> unlocked out = false).
Proof.
  intros Hu Hb Hnet Hparse.
  rewrite api_check_unlocked_configured by assumption. cbv zeta.
  rewrite Hnet, Hparse. eexists. split; [reflexivity | ]. cbn [unlocked].
  repeat split.
  - intros u H. rewrite (extract_unlocked_rule1 _ _ H). reflexivity.
  - intros u H. rewrite (extract_unlocked_rule2 _ _ H). reflexivity.
  - intros H1 H2. destruct (extract_unlocked parsed) as [b | ] eqn:E;
      [ | reflexivity].
    apply extract_unlocked_inv in E. destruct E as (u & _ & [H | H]).
    + elim (H1 u H).
    + elim (H2 u H).
  - intros ->. reflexivity.
Qed.

(** ** The store *)

Lemma append_assoc (a b c : string) : ((a ++ b) ++ c = a ++ (b ++ c))%string.
Proof.
  induction a as [ | x a IH]; cbn; [reflexivity | now rewrite IH].
Qed.

Lemma append_empty_r (a : string) : (a ++ EmptyString = a)%string.
Proof.
  induction a as [ | x a IH]; cbn; [reflexivity | now rewrite IH].
Qed.

Lemma load_data_spec (w : World) :
  load_data w
  = (Ret match data_file w with
         | FContent text =>
             match json_loads text with
             | Some v => v
             | None => default_data
             end
         | _ => default_data
         end, w).
Proof.
  unfold load_data, path_exists, read_json. run_monad.
  destruct (data_file w) as [ | | text] eqn:E; cbn [negb]; cbv beta;
    rewrite ?E; try reflexivity.
  destruct (json_loads text); reflexivity.
Qed.

Lemma written_prefix (text data : string) :
  written text data = substring 0 (String.length (written text data)) data.
Proof.
  revert text. induction data as [ | b rest IH]; intros text; cbn.
  - reflexivity.
  - destruct (write_fault text (String b EmptyString)); cbn; [reflexivity | ].
    f_equal. apply IH.
Qed.

Lemma written_length (text data : string) :
  (String.length (written text data) <= String.length data)%nat.
Proof.
  revert text. induction data as [ | b rest IH]; intros text; cbn.
  - lia.
  - destruct (write_fault text (String b EmptyString)); cbn; [lia | ].
    specialize (IH (text ++ String b EmptyString)%string). lia.
Qed.

Lemma written_no_fault (text data : string) :
  (forall t c, write_fault t c = false) -> written text data = data.
Proof.
  intros H. revert text. induction data as [ | b rest IH]; intros text; cbn.
  - reflexivity.
  - rewrite H. f_equal. apply IH.
Qed.

(** Emptying a buffer: the bytes up to the first one refused are appended,
    and the call returns iff none was refused. *)
Lemma flush_buffer_spec (data text : string) (lg : list event) :
  flush_buffer data (mkWorld (FContent text) lg)
  = (if (String.length (written text data) =? String.length data)%nat
     then Ret tt
     else Raise (mkExn OSError "write failed"),
     mkWorld (FContent (text ++ written text data)) lg).
Proof.
  revert text. induction data as [ | b rest IH]; intros text; cbn.
  - now rewrite append_empty_r.
  - destruct (write_fault text (String b EmptyString)); cbn.
    + now rewrite append_empty_r.
    + rewrite IH, append_assoc. reflexivity.
Qed.

Lemma json_dump_join (d : value) (buffer : string) :
  json_dump d buffer = (buffer ++ join (json_iterencode d))%string.
Proof.
  unfold json_dump. revert buffer.
  induction (json_iterencode d) as [ | c rest IH]; intros buffer; cbn.
  - now rewrite append_empty_r.
  - rewrite IH. unfold write_chunk. apply append_assoc.
Qed.

Lemma save_data_flush (d : value) (w : World) :
  data_file w <> FUnreadable ->
  save_data d w
  = flush_buffer (join (json_iterencode d))
      (mkWorld (FContent EmptyString) (log w)).
Proof.
  intros Hw. unfold save_data, bind, open_w, close_file.
  rewrite json_dump_join. cbn [append].
  destruct (data_file w); [reflexivity | contradiction | reflexivity].
Qed.

Lemma flush_buffer_app (a b : string) (text : string) (lg : list event) :
  flush_buffer (a ++ b) (mkWorld (FContent text) lg)
  = (flush_buffer a ;;; flush_buffer b) (mkWorld (FContent text) lg).
Proof.
  revert text. induction a as [ | x a IH]; intros text; cbn.
  - reflexivity.
  - unfold bind. cbn.
    destruct (write_fault text (String x EmptyString)); [reflexivity | ].
    rewrite IH. reflexivity.
Qed.

Lemma dump_flushing_spec (policy : string -> bool) (chunks : list string)
    (buffer text : string) (lg : list event) :
  dump_flushing policy chunks buffer (mkWorld (FContent text) lg)
  = flush_buffer (fold_left write_chunk chunks buffer)
      (mkWorld (FContent text) lg).
Proof.
  revert buffer text. induction chunks as [ | c rest IH]; intros buffer text.
  - reflexivity.
  - cbn [dump_flushing fold_left]. cbv zeta.
    destruct (policy (write_chunk buffer c)); [ | apply IH].
    assert (forall l b0, fold_left write_chunk l b0
                         = (b0 ++ fold_left write_chunk l EmptyString)%string)
      as Hfold.
    { induction l as [ | c0 l IHl]; intros b0; cbn [fold_left].
      - now rewrite append_empty_r.
      - rewrite IHl, (IHl (write_chunk EmptyString c0)).
        unfold write_chunk. cbn [append]. now rewrite append_assoc. }
    rewrite (Hfold rest (write_chunk buffer c)), flush_buffer_app.
    unfold bind. rewrite flush_buffer_spec.
    destruct (_ =? _)%nat; [apply IH | reflexivity].
Qed.

(** When the buffer is emptied changes nothing to how a save ends nor to
    what it leaves in the file. *)
Lemma flush_policy_irrelevant (policy : string -> bool) (d : value)
    (w : World) :
  save_data_flushing policy d w = save_data d w.
Proof.
  unfold save_data_flushing, save_data, bind, open_w, close_file, json_dump.
  destruct (data_file w); try reflexivity; apply dump_flushing_spec.
Qed.

(** C7.  [load_data] never raises and leaves the world as it is.  It
    returns the parsed content of the file when there is one; when the file
    is missing, cannot be opened, or does not parse, it returns the default
    state: no chats, an endpoint with empty url and token, and an empty
    cache.  On that default state the scheduler's sweep, the caller of
    [load_data], returns without raising. *)
Theorem load_data_total (w : World) :
  exists d,
    load_data w = (Ret d, w)
    /\ (forall text v,
          data_file w = FContent text -> json_loads text = Some v -> d = v)
    /\ (data_file w = FAbsent -> d = default_data)
    /\ (data_file w = FUnreadable -> d = default_data)
    /\ (forall text,
          data_file w = FContent text -> json_loads text = None ->
          d = default_data)
    /\ (d = default_data ->
        py_get d "chats" PyNone w = (Ret (PyDict []), w)
        /\ py_get d "api" PyNone w
           = (Ret (PyDict [("url", PyStr EmptyString);
                           ("token", PyStr EmptyString)]), w)
        /\ py_get d "last_seen_unlocked" PyNone w = (Ret (PyDict []), w)
        /\ periodic_check w = (Ret tt, w)).
Proof.
  eexists. split; [apply load_data_spec | ]. repeat split.
  - intros text v -> ->. reflexivity.
  - intros ->. reflexivity.
  - intros ->. reflexivity.
  - intros text -> ->. reflexivity.
  - rewrite H. reflexivity.
  - rewrite H. reflexivity.
  - rewrite H. reflexivity.
  - unfold periodic_check, bind. rewrite load_data_spec, H. reflexivity.
Qed.

(** C9.  On a file whose text parses to a state [v], loading and saving
    back leaves a file that loads to the same [v]; and leaves the very same
    text when the file was the encoder's output for [v].  (The writes are
    assumed not to fail, and [json.loads] to read back what [json.dump]
    wrote for [v].) *)
Theorem save_load_roundtrip (w : World) (text : string) (v : value) :
  data_file w = FContent text ->
  json_loads text = Some v ->
  (forall t c, write_fault t c = false) ->
  json_loads (join (json_iterencode v)) = Some v ->
  let r := (d <- load_data ;; save_data d) w in
  fst r = Ret tt
  /\ fst (load_data (snd r)) = fst (load_data w)
  /\ fst (load_data w) = Ret v
  /\ log (snd r) = log w
  /\ (text = join (json_iterencode v) -> snd r = w).
Proof.
  intros Hf Hp Hok Hlaw. cbv zeta.
  assert ((d <- load_data ;; save_data d) w
          = (Ret tt, mkWorld (FContent (join (json_iterencode v))) (log w)))
    as ->.
  { unfold bind at 1. rewrite load_data_spec, Hf, Hp.
    rewrite save_data_flush by (rewrite Hf; discriminate).
    rewrite flush_buffer_spec, written_no_fault by assumption.
    now rewrite Nat.eqb_refl. }
  rewrite !load_data_spec, Hf, Hp. cbn [fst snd data_file log].
  rewrite Hlaw. repeat split.
  intros <-. destruct w. cbn in *. congruence.
Qed.

(** ** The sweep *)

(** *** No step of a sweep writes the data file *)

Lemma keeps_file_ret {A} (a : A) : keeps_file (ret a).
Proof. intros w. reflexivity. Qed.

Lemma keeps_file_raise {A} (e : exn) : keeps_file (@raise A e).
Proof. intros w. reflexivity. Qed.

Lemma keeps_file_bind {A B} (m : M A) (f : A -> M B) :
  keeps_file m -> (forall a, keeps_file (f a)) -> keeps_file (bind m f).
Proof.
  intros Hm Hf w. unfold bind. specialize (Hm w).
  destruct (m w) as [[a | e] w']; cbn [snd] in *.
  - now rewrite Hf.
  - exact Hm.
Qed.

Lemma keeps_file_try_except {A} (m : M A) (h : exn -> M A) :
  keeps_file m -> (forall e, keeps_file (h e)) -> keeps_file (try_except m h).
Proof.
  intros Hm Hh w. unfold try_except. specialize (Hm w).
  destruct (m w) as [[a | e] w']; cbn [snd] in *.
  - exact Hm.
  - now rewrite Hh.
Qed.

Lemma keeps_file_for_each {X} (xs : list X) (body : X -> M unit) :
  (forall x, keeps_file (body x)) -> keeps_file (for_each xs body).
Proof.
  intros Hb. induction xs as [ | x rest IH]; cbn.
  - apply keeps_file_ret.
  - apply keeps_file_bind; auto.
Qed.

Lemma keeps_file_if {A} (b : bool) (m1 m2 : M A) :
  keeps_file m1 -> keeps_file m2 -> keeps_file (if b then m1 else m2).
Proof. destruct b; auto. Qed.

Lemma keeps_file_py_get (v : value) (k : string) (dflt : value) :
  keeps_file (py_get v k dflt).
Proof. destruct v; intros w; reflexivity. Qed.

Lemma keeps_file_py_getitem (v : value) (k : string) :
  keeps_file (py_getitem v k).
Proof.
  destruct v; intros w; try reflexivity. cbn.
  destruct (dict_get k kv); reflexivity.
Qed.

Lemma keeps_file_py_items (v : value) : keeps_file (py_items v).
Proof. destruct v; intros w; reflexivity. Qed.

Lemma keeps_file_py_iter (v : value) : keeps_file (py_iter v).
Proof. destruct v; intros w; reflexivity. Qed.

Lemma keeps_file_session_post (r : request) : keeps_file (session_post r).
Proof. intros w. unfold session_post. destruct (net (log w) r); reflexivity. Qed.

Lemma keeps_file_send_message (n : Z) (text : string) :
  keeps_file (send_message n text).
Proof.
  intros w. unfold send_message. destruct (bot_send (log w) n text); reflexivity.
Qed.

Lemma keeps_file_datetime_now : keeps_file datetime_now.
Proof. intros w. reflexivity. Qed.

Lemma keeps_file_py_int (s : string) : keeps_file (py_int s).
Proof. unfold py_int. destruct (int_of_str s); intros w; reflexivity. Qed.

Lemma keeps_file_load_data : keeps_file load_data.
Proof. intros w. now rewrite load_data_spec. Qed.

Create HintDb keeps discriminated.
#[local] Hint Resolve keeps_file_ret keeps_file_raise keeps_file_bind
  keeps_file_try_except keeps_file_for_each keeps_file_if keeps_file_py_get
  keeps_file_py_getitem keeps_file_py_items keeps_file_py_iter
  keeps_file_session_post keeps_file_send_message keeps_file_datetime_now
  keeps_file_py_int keeps_file_load_data : keeps.

Lemma keeps_file_api_check_unlocked (base_url bearer account : value) :
  keeps_file (api_check_unlocked base_url bearer account).
Proof.
  unfold api_check_unlocked. apply keeps_file_if; [auto with keeps | ].
  apply keeps_file_try_except; [ | auto with keeps].
  apply keeps_file_bind; [auto with keeps | ].
  intros [code text]. auto with keeps.
Qed.
#[local] Hint Resolve keeps_file_api_check_unlocked : keeps.

Lemma keeps_file_check_account (base_url bearer : value) (chat_id : string)
    (acc : value) :
  keeps_file (check_account base_url bearer chat_id acc).
Proof.
  unfold check_account. apply keeps_file_bind; [auto with keeps | ].
  intros res. apply keeps_file_if; [ | auto with keeps].
  apply keeps_file_bind; [auto with keeps | ]. intros t.
  apply keeps_file_bind; auto with keeps.
Qed.
#[local] Hint Resolve keeps_file_check_account : keeps.

Lemma keeps_file_sweep (base_url bearer : value) (items : list (string * value)) :
  keeps_file (sweep base_url bearer items).
Proof.
  unfold sweep. apply keeps_file_for_each. intros item.
  apply keeps_file_bind; [auto with keeps | ]. intros accounts.
  apply keeps_file_bind; auto with keeps.
Qed.
#[local] Hint Resolve keeps_file_sweep : keeps.

Lemma keeps_file_periodic_check_on (d : value) : keeps_file (periodic_check_on d).
Proof.
  unfold periodic_check_on.
  repeat (apply keeps_file_bind; [auto with keeps | ]; intro).
  apply keeps_file_if; [auto with keeps | ].
  repeat (apply keeps_file_bind; [auto with keeps | ]; intro).
  auto with keeps.
Qed.

Lemma keeps_file_periodic_check : keeps_file periodic_check.
Proof.
  unfold periodic_check. apply keeps_file_bind; [auto with keeps | ].
  apply keeps_file_periodic_check_on.
Qed.

(** *** The sweep does not look at the cache *)

Lemma dict_get_dict_set_other (k k' : string) (v : value)
    (kv : list (string * value)) :
  k <> k' -> dict_get k (dict_set k' v kv) = dict_get k kv.
Proof.
  intros Hk. induction kv as [ | [k0 v0] rest IH]; cbn.
  - destruct (String.eqb_spec k k'); [contradiction | reflexivity].
  - destruct (String.eqb_spec k' k0) as [-> | Hne]; cbn.
    + destruct (String.eqb_spec k k0); [contradiction | reflexivity].
    + now rewrite IH.
Qed.

Lemma periodic_check_on_reads (kv kv' : list (string * value)) :
  dict_get "api" kv = dict_get "api" kv' ->
  dict_get "chats" kv = dict_get "chats" kv' ->
  periodic_check_on (PyDict kv) = periodic_check_on (PyDict kv').
Proof.
  intros Ha Hc. unfold periodic_check_on, py_get at 1 4, py_getitem.
  now rewrite Ha, Hc.
Qed.

(** The decision of one (subscriber, account) step, from the result of its
    probe. *)
Lemma check_account_decision (base_url bearer : value) (chat_id : string)
    (acc : value) (w w1 : World) (res : ProbeResult) :
  api_check_unlocked base_url bearer acc w = (Ret res, w1) ->
  check_account base_url bearer chat_id acc w
  = if unlocked res then
      match int_of_str chat_id with
      | Some n =>
          send_message n (format_notification (py_format acc) true (now (log w1))) w1
      | None => (Raise (mkExn ValueError "invalid literal for int()"), w1)
      end
    else (Ret tt, w1).
Proof.
  intros H. unfold check_account, bind at 1. rewrite H.
  destruct (unlocked res); [ | reflexivity].
  unfold bind, datetime_now, py_int. destruct (int_of_str chat_id); reflexivity.
Qed.

Lemma sends_app (l1 l2 : list event) : sends (l1 ++ l2) = (sends l1 ++ sends l2)%list.
Proof. apply flat_map_app. Qed.

Lemma posts_app (l1 l2 : list event) : posts (l1 ++ l2) = (posts l1 ++ posts l2)%list.
Proof. apply flat_map_app. Qed.

Lemma api_check_unlocked_sends (base_url bearer account : value) (w : World) :
  sends (log (snd (api_check_unlocked base_url bearer account w))) = sends (log w).
Proof.
  destruct (truthy base_url) eqn:Hu; [destruct (truthy bearer) eqn:Hb | ].
  - rewrite api_check_unlocked_configured by assumption. cbn.
    rewrite sends_app. cbn. apply app_nil_r.
  - now rewrite api_check_unlocked_unconfigured by (right; assumption).
  - now rewrite api_check_unlocked_unconfigured by (left; assumption).
Qed.

(** C1, as the code has it.  The cache plays no part in a sweep: replacing
    the [last_seen_unlocked] entry of the state by anything leaves the sweep
    the same computation, and a sweep never writes the data file.  At each
    (subscriber, account) step a message is handed to the bot iff the probe
    of that step reports unlocked. *)
Theorem notify_iff_probe_unlocked :
  (forall kv cache,
     periodic_check_on (PyDict (dict_set "last_seen_unlocked" cache kv))
     = periodic_check_on (PyDict kv))
  /\ (forall w, data_file (snd (periodic_check w)) = data_file w)
  /\ (forall base_url bearer chat_id acc n w res w1,
        int_of_str chat_id = Some n ->
        api_check_unlocked base_url bearer acc w = (Ret res, w1) ->
        sends (log (snd (check_account base_url bearer chat_id acc w)))
        = (sends (log w)
           ++ if unlocked res
              then [(n, format_notification (py_format acc) true (now (log w1)))]
              else [])%list).
Proof.
  split; [ | split].
  - intros kv cache. apply periodic_check_on_reads;
      apply dict_get_dict_set_other; discriminate.
  - apply keeps_file_periodic_check.
  - intros base_url bearer chat_id acc n w res w1 Hn H.
    rewrite (check_account_decision _ _ _ _ _ _ _ H), Hn.
    pose proof (api_check_unlocked_sends base_url bearer acc w) as Hs.
    rewrite H in Hs. cbn [snd] in Hs.
    destruct (unlocked res).
    + unfold send_message.
      destruct (bot_send (log w1) n _); cbn [snd log];
        rewrite sends_app, Hs; reflexivity.
    + cbn [snd]. rewrite Hs. symmetry. apply app_nil_r.
Qed.

(** *** A probe that fails does not stop the sweep *)

Lemma check_account_spec (base_url bearer : value) (chat_id : string)
    (acc : value) (w : World) :
  truthy base_url = true -> truthy bearer = true ->
  let r := mkRequest base_url bearer acc 20 in
  let w1 := mkWorld (data_file w) (log w ++ [EvPost r]) in
  check_account base_url bearer chat_id acc w
  = if probe_says_unlocked (net (log w) r) then
      match int_of_str chat_id with
      | Some n =>
          send_message n (format_notification (py_format acc) true (now (log w1))) w1
      | None => (Raise (mkExn ValueError "invalid literal for int()"), w1)
      end
    else (Ret tt, w1).
Proof.
  intros Hu Hb r w1.
  rewrite (check_account_decision _ _ _ _ _ _ _
             (api_check_unlocked_configured _ _ _ _ Hu Hb)).
  fold r. destruct (net (log w) r); reflexivity.
Qed.

Lemma sweep_spec_log_app (base_url bearer : value) (ps qs : list (Z * value))
    (lg : list event) :
  sweep_spec_log base_url bearer (ps ++ qs) lg
  = sweep_spec_log base_url bearer qs (sweep_spec_log base_url bearer ps lg).
Proof.
  revert lg. induction ps as [ | [n acc] ps IH]; intros lg; cbn.
  - reflexivity.
  - apply IH.
Qed.

Lemma sweep_spec_log_posts (base_url bearer : value) (ps : list (Z * value))
    (lg : list event) :
  posts (sweep_spec_log base_url bearer ps lg)
  = (posts lg ++ map (fun p => mkRequest base_url bearer (snd p) 20) ps)%list.
Proof.
  revert lg. induction ps as [ | [n acc] ps IH]; intros lg; cbn.
  - symmetry. apply app_nil_r.
  - rewrite IH. destruct (probe_says_unlocked _);
      rewrite ?posts_app; cbn; rewrite ?app_nil_r, <- app_assoc; reflexivity.
Qed.

Section Deliveries_succeed.

Hypothesis delivered : forall lg n text, bot_send lg n text = None.

Lemma accounts_loop (base_url bearer : value) (chat_id : string) (n : Z)
    (accs : list value) (w : World) :
  truthy base_url = true -> truthy bearer = true ->
  int_of_str chat_id = Some n ->
  for_each accs (check_account base_url bearer chat_id) w
  = (Ret tt,
     mkWorld (data_file w)
       (sweep_spec_log base_url bearer (map (pair n) accs) (log w))).
Proof.
  intros Hu Hb Hn. revert w.
  induction accs as [ | acc accs IH]; intros w; cbn.
  - destruct w; reflexivity.
  - unfold bind. rewrite check_account_spec by assumption. cbv zeta.
    rewrite Hn. destruct (probe_says_unlocked _).
    + unfold send_message. rewrite delivered. cbn [data_file log].
      rewrite IH. reflexivity.
    + rewrite IH. reflexivity.
Qed.

Lemma sweep_spec (base_url bearer : value) (items : list (string * value))
    (pairs : list (Z * value)) (w : World) :
  truthy base_url = true -> truthy bearer = true ->
  sweep_pairs items = Some pairs ->
  sweep base_url bearer items w
  = (Ret tt, mkWorld (data_file w) (sweep_spec_log base_url bearer pairs (log w))).
Proof.
  intros Hu Hb. revert pairs w.
  induction items as [ | [chat cfg] items IH]; intros pairs w; cbn.
  - intros [= <-]. destruct w; reflexivity.
  - destruct (int_of_str chat) as [n | ] eqn:Hn; [ | discriminate].
    destruct (subscriber_accounts cfg) as [accs | ] eqn:Hcfg; [ | discriminate].
    destruct (sweep_pairs items) as [ps | ] eqn:Hps; [ | discriminate].
    intros [= <-]. unfold sweep in *. cbn [for_each fst snd].
    assert ((accounts <- py_get cfg "accounts" (PyList []) ;;
             accs0 <- py_iter accounts ;;
             for_each accs0 (check_account base_url bearer chat)) w
            = for_each accs (check_account base_url bearer chat) w) as Hbody.
    { destruct cfg as [ | | | | | | ckv]; try discriminate. cbn in Hcfg.
      unfold bind, py_get, ret.
      destruct (dict_get "accounts" ckv) as [[ | | | | | l | ] | ];
        try discriminate; injection Hcfg as <-; reflexivity. }
    unfold bind at 1. rewrite Hbody, (accounts_loop _ _ _ n) by assumption.
    rewrite (IH ps) by reflexivity. cbn [data_file log].
    now rewrite sweep_spec_log_app.
Qed.

(** C2, as the code has it.  With a configured endpoint, chats of the
    expected shape and a bot that delivers, a sweep returns normally
    whatever the transport does at each probe, failures included: its log is
    the one of a sweep that visits every (subscriber, account) pair once,
    in order, each with one probe and, when the probe reports unlocked, one
    notification; so the requests of the sweep are exactly one per pair. *)
Theorem sweep_survives_probe_errors (kv akv items : list (string * value))
    (base_url bearer : value) (pairs : list (Z * value)) (w : World) :
  dict_get "api" kv = Some (PyDict akv) ->
  dict_get "url" akv = Some base_url -> truthy base_url = true ->
  dict_get "token" akv = Some bearer -> truthy bearer = true ->
  dict_get "chats" kv = Some (PyDict items) ->
  sweep_pairs items = Some pairs ->
  periodic_check_on (PyDict kv) w
  = (Ret tt, mkWorld (data_file w) (sweep_spec_log base_url bearer pairs (log w)))
  /\ posts (log (snd (periodic_check_on (PyDict kv) w)))
     = (posts (log w)
        ++ map (fun p => mkRequest base_url bearer (snd p) 20) pairs)%list.
Proof.
  intros Hapi Hurl Hu Htok Hb Hchats Hpairs.
  assert (periodic_check_on (PyDict kv) w
          = (Ret tt,
             mkWorld (data_file w)
               (sweep_spec_log base_url bearer pairs (log w)))) as ->.
  { unfold periodic_check_on.
    unfold py_get at 1. rewrite Hapi, bind_ret.
    unfold py_get at 1. rewrite Hurl, bind_ret.
    unfold py_get at 1. rewrite Htok, bind_ret.
    rewrite Hu, Hb. cbn [negb orb].
    unfold py_getitem. rewrite Hchats, bind_ret.
    unfold py_items. rewrite bind_ret. now apply sweep_spec. }
  split; [reflexivity | ]. cbn [snd log]. apply sweep_spec_log_posts.
Qed.

End Deliveries_succeed.

End Program.

(** * The command handlers

    [cmd_add], [cmd_list], [cmd_setapi], [cmd_settoken] and [cmd_testnotify].
    A handler takes what it reads of the update, [context.args] and
    [update.effective_chat.id], and returns the text it hands to
    [update.message.reply_text], which is its last action.  Python mutates
    the loaded state in place; here every container that holds the mutated
    object is written back, so that the state that is saved is the one the
    mutation leaves. *)

(** [{"accounts": [], "interval_min": 5}] *)
Definition new_cfg : value :=
  PyDict [("accounts", PyList []); ("interval_min", PyInt 5)].

(** [v[k] = x] for a string [k]. *)
Definition py_setitem (v : value) (k : string) (x : value) : M value :=
  match v with
  | PyDict kv => ret (PyDict (dict_set k x kv))
  | _ => raise (mkExn TypeError "object does not support item assignment")
  end.

(** [v.setdefault(k, dflt)]: the container afterwards, and the entry. *)
Definition py_setdefault (v : value) (k : string) (dflt : value)
    : M (value * value) :=
  match v with
  | PyDict kv =>
      match dict_get k kv with
      | Some x => ret (v, x)
      | None => ret (PyDict (dict_set k dflt kv), dflt)
      end
  | _ => raise (mkExn AttributeError "object has no attribute 'setdefault'")
  end.

(** [v.append(x)] *)
Definition py_append (v x : value) : M value :=
  match v with
  | PyList l => ret (PyList (l ++ [x]))
  | _ => raise (mkExn AttributeError "object has no attribute 'append'")
  end.

(** Line 108:
    [d["chats"].setdefault(chat, {...})["accounts"].append(acc)]. *)
Definition add_account (d : value) (chat acc : string) : M value :=
  chats <- py_getitem d "chats" ;;
  p <- py_setdefault chats chat new_cfg ;;
  accounts <- py_getitem (snd p) "accounts" ;;
  accounts' <- py_append accounts (PyStr acc) ;;
  cfg' <- py_setitem (snd p) "accounts" accounts' ;;
  chats' <- py_setitem (fst p) chat cfg' ;;
  py_setitem d "chats" chats'.

(** Lines 124 and 132: [d["api"][field] = val]. *)
Definition set_api_field (d : value) (field val : string) : M value :=
  api <- py_getitem d "api" ;;
  api' <- py_setitem api field (PyStr val) ;;
  py_setitem d "api" api'.

(** ["\n".join(rows)] *)
Definition join_lines (rows : list string) : string := String.concat nl rows.

(** [d["chats"][chat]["accounts"]] when it is there and is a list. *)
Definition accounts_of (d : value) (chat : string) : option (list value) :=
  match d with
  | PyDict kv =>
      match dict_get "chats" kv with
      | Some (PyDict items) =>
          match dict_get chat items with
          | Some (PyDict ckv) =>
              match dict_get "accounts" ckv with
              | Some (PyList l) => Some l
              | _ => None
              end
          | _ => None
          end
      | _ => None
      end
  | _ => None
  end.

(** [d["chats"][chat]], and [d["api"][field]], when they are there. *)
Definition chat_cfg (d : value) (chat : string) : option value :=
  match d with
  | PyDict kv =>
      match dict_get "chats" kv with
      | Some (PyDict items) => dict_get chat items
      | _ => None
      end
  | _ => None
  end.

Definition api_field (d : value) (field : string) : option value :=
  match d with
  | PyDict kv =>
      match dict_get "api" kv with
      | Some (PyDict akv) => dict_get field akv
      | _ => None
      end
  | _ => None
  end.

(** [d[k]] when [d] is a mapping with that key. *)
Definition top_field (d : value) (k : string) : option value :=
  match d with
  | PyDict kv => dict_get k kv
  | _ => None
  end.

(** The state of a store with the four keys of the default state, an
    endpoint and chats. *)
Definition store_with (u t : string) (chats : list (string * value)) : value :=
  PyDict [("chats", PyDict chats);
          ("api", PyDict [("url", PyStr u); ("token", PyStr t)]);
          ("last_seen_unlocked", PyDict []);
          ("include_raw", PyBool false)].

(** The entry [cmd_add] makes for a new subscriber. *)
Definition one_account_cfg (acc : string) : value :=
  PyDict [("accounts", PyList [PyStr acc]); ("interval_min", PyInt 5)].

(** The values Python takes for false. *)
Definition falsy_literal (u : value) : Prop :=
  u = PyNone \/ u = PyBool false \/ u = PyInt 0
  \/ (exists s, u = PyFloat (S754_zero s))
  \/ u = PyStr EmptyString \/ u = PyList [] \/ u = PyDict [].

(** A subscriber's entry with another [interval_min]. *)
Definition with_interval (v : value) (cfg : value) : value :=
  match cfg with
  | PyDict ckv => PyDict (dict_set "interval_min" v ckv)
  | _ => cfg
  end.

(** A computation that leaves the whole world as it found it. *)
Definition read_only {A} (m : M A) : Prop := forall w, snd (m w) = w.

(** A computation that only appends to the log, and what it appends
    satisfies [P]. *)
Definition appends {A} (P : list event -> Prop) (m : M A) : Prop :=
  forall w, exists ext, log (snd (m w)) = (log w ++ ext)%list /\ P ext.

(** What a sweep may add to the log: requests with the timeout of twenty,
    and notices of the unlocked kind. *)
Definition sweep_event (e : event) : Prop :=
  match e with
  | EvPost r => req_timeout r = 20
  | EvSend _ text _ =>
      exists account check_dt, text = format_notification account true check_dt
  end.

(** Events of a sweep, with no more notices than requests. *)
Definition sweep_events (ext : list event) : Prop :=
  Forall sweep_event ext /\ (length (sends ext) <= length (posts ext))%nat.

(** No message handed to the bot. *)
Definition silent (ext : list event) : Prop := sends ext = [].

(** A reference [str.strip] on the ASCII white space, for the concrete
    instances. *)
Module MiniStr.

Definition is_space (c : ascii) : bool :=
  let n := nat_of_ascii c in
  ((9 <=? n) && (n <=? 13) || (28 <=? n) && (n <=? 32))%nat.

Fixpoint lstrip (s : string) : string :=
  match s with
  | String c r => if is_space c then lstrip r else s
  | EmptyString => s
  end.

Fixpoint rstrip (s : string) : string :=
  match s with
  | EmptyString => EmptyString
  | String c r =>
      match rstrip r with
      | EmptyString => if is_space c then EmptyString else String c EmptyString
      | r' => String c r'
      end
  end.

Definition strip (s : string) : string := rstrip (lstrip s).

End MiniStr.

Section Commands.

Variable json_loads : string -> option value.
Variable json_iterencode : value -> list string.
Variable write_fault : string -> string -> bool.
Variable net : list event -> request -> transport.
Variable bot_send : list event -> Z -> string -> option exn.
Variable now : list event -> datetime.
Variable int_of_str : string -> option Z.
Variable str_of_other : value -> string.
(** [s.strip()] *)
Variable py_strip : string -> string.

(** [str(update.effective_chat.id)] *)
Definition chat_key (chat_id : Z) : string := str_of_other (PyInt chat_id).

Definition cmd_add (args : list string) (chat_id : Z) : M string :=
  match args with
  | [] => ret "Dùng: /add <account>"
  | a :: _ =>
      let acc := py_strip a in
      let chat := chat_key chat_id in
      d <- load_data json_loads ;;
      d' <- add_account d chat acc ;;
      save_data json_iterencode write_fault d' ;;;
      ret ("Đã thêm: " ++ acc)
  end.

Definition cmd_list (chat_id : Z) : M string :=
  let chat := chat_key chat_id in
  d <- load_data json_loads ;;
  chats <- py_getitem d "chats" ;;
  cfg <- py_get chats chat new_cfg ;;
  accounts <- py_getitem cfg "accounts" ;;
  accs <- py_iter accounts ;;
  let rows :=
    match join_lines (map (fun a => "- " ++ py_format str_of_other a) accs) with
    | EmptyString => "- (trống)"
    | joined => joined
    end in
  api <- py_get d "api" (PyDict []) ;;
  url <- py_get api "url" PyNone ;;
  let api_url := py_or url (PyStr "(chưa đặt)") in
  interval <- py_getitem cfg "interval_min" ;;
  ret ("Đang theo dõi:" ++ nl ++ rows ++ nl
       ++ "Chu kỳ: " ++ py_format str_of_other interval ++ " phút" ++ nl
       ++ "API: " ++ py_format str_of_other api_url).

Definition cmd_setapi (args : list string) : M string :=
  match args with
  | [] => ret "Dùng: /setapi <url>"
  | a :: _ =>
      let url := py_strip a in
      d <- load_data json_loads ;;
      d' <- set_api_field d "url" url ;;
      save_data json_iterencode write_fault d' ;;;
      ret ("Đã lưu API URL: " ++ url)
  end.

Definition cmd_settoken (args : list string) : M string :=
  match args with
  | [] => ret "Dùng: /settoken <token>"
  | a :: _ =>
      let tok := py_strip a in
      d <- load_data json_loads ;;
      d' <- set_api_field d "token" tok ;;
      save_data json_iterencode write_fault d' ;;;
      ret "Đã lưu Bearer token."
  end.

Definition cmd_testnotify (args : list string) : M string :=
  match args with
  | [] => ret "Dùng: /testnotify <account>"
  | a :: _ =>
      let acc := py_strip a in
      t <- datetime_now now ;;
      ret (format_notification acc true t)
  end.

(** The codec reads back what it writes for [v]; and no write fails. *)
Definition reads_back (v : value) : Prop :=
  json_loads (join (json_iterencode v)) = Some v.

Definition no_write_fault : Prop := forall t c, write_fault t c = false.

Local Abbreviation load := (load_data json_loads).
Local Abbreviation save := (save_data json_iterencode write_fault).
Local Abbreviation tick :=
  (periodic_check json_loads net bot_send now int_of_str str_of_other).
Local Abbreviation tick_on :=
  (periodic_check_on json_loads net bot_send now int_of_str str_of_other).
Local Abbreviation probe_account :=
  (check_account json_loads net bot_send now int_of_str str_of_other).
Local Abbreviation sweep_chats :=
  (sweep json_loads net bot_send now int_of_str str_of_other).

(** The commands and the sweep are coroutines of one event loop: one runs
    until it awaits, and only then does another.  [load_data] and
    [save_data] are plain functions, and no command awaits between its
    [load_data] and the end of its [save_data].  So a turn, the code that
    runs between two awaits, is a whole command up to its reply, or the
    sweep, or one of the steps of the sweep: a probe, a message.
    [reachable w0 w]: some sequence of turns makes [w] of [w0]; these are
    the worlds a [load_data] of the program can run in. *)
Inductive reachable (w0 : World) : World -> Prop :=
| reach_start : reachable w0 w0
| reach_cmd_add (args : list string) (chat_id : Z) (w : World) :
    reachable w0 w -> reachable w0 (snd (cmd_add args chat_id w))
| reach_cmd_list (chat_id : Z) (w : World) :
    reachable w0 w -> reachable w0 (snd (cmd_list chat_id w))
| reach_cmd_setapi (args : list string) (w : World) :
    reachable w0 w -> reachable w0 (snd (cmd_setapi args w))
| reach_cmd_settoken (args : list string) (w : World) :
    reachable w0 w -> reachable w0 (snd (cmd_settoken args w))
| reach_cmd_testnotify (args : list string) (w : World) :
    reachable w0 w -> reachable w0 (snd (cmd_testnotify args w))
| reach_sweep (w : World) :
    reachable w0 w -> reachable w0 (snd (tick w))
| reach_probe (base_url bearer account : value) (w : World) :
    reachable w0 w ->
    reachable w0
      (snd (api_check_unlocked json_loads net base_url bearer account w))
| reach_send (chat_id : Z) (text : string) (w : World) :
    reachable w0 w -> reachable w0 (snd (send_message bot_send chat_id text w)).

(** ** Saving and loading *)

Lemma save_data_start (d : value) (w : World) :
  data_file w <> FUnreadable ->
  save d w
  = flush_buffer write_fault (join (json_iterencode d))
      (mkWorld (FContent EmptyString) (log w)).
Proof. apply save_data_flush. Qed.

Lemma save_data_ok (d : value) (w : World) :
  data_file w <> FUnreadable -> no_write_fault ->
  save d w = (Ret tt, mkWorld (FContent (join (json_iterencode d))) (log w)).
Proof.
  intros Hw Hok. rewrite save_data_start by assumption.
  rewrite flush_buffer_spec, written_no_fault by assumption.
  now rewrite Nat.eqb_refl.
Qed.

(** X1.  What [save_data] wrote is what [load_data] returns: after a save
    that meets no failing write, on a codec that reads back what it writes
    for [d], loading gives [d]. *)
Theorem save_then_load (d : value) (w : World) :
  data_file w <> FUnreadable -> no_write_fault -> reads_back d ->
  (save d ;;; load) w
  = (Ret d, mkWorld (FContent (join (json_iterencode d))) (log w)).
Proof.
  intros Hw Hok Hback. unfold bind at 1. rewrite save_data_ok by assumption.
  rewrite load_data_spec. cbn [data_file]. now rewrite Hback.
Qed.

(** X2.  A save does not depend on what the file held: from any two worlds
    with the same history in which the file can be opened, saving [d] ends
    the same way and leaves the same world, failing writes included. *)
Theorem save_forgets_old_content (d : value) (w1 w2 : World) :
  data_file w1 <> FUnreadable -> data_file w2 <> FUnreadable ->
  log w1 = log w2 ->
  save d w1 = save d w2.
Proof.
  intros H1 H2 Hlog. rewrite !save_data_start by assumption. now rewrite Hlog.
Qed.

(** ** More on the sweep *)

Lemma load_data_result (w : World) :
  exists d, load w = (Ret d, w).
Proof. eexists. apply load_data_spec. Qed.

(** X3.  Without an endpoint the sweep does nothing at all: when the stored
    state is a mapping whose [api] entry is missing, or is a mapping whose
    [url] or [token] is missing or falsy, [periodic_check] returns with the
    world unchanged, whatever [chats] holds. *)
Theorem sweep_unconfigured_is_noop (kv : list (string * value)) (w : World) :
  fst (load w) = Ret (PyDict kv) ->
  (dict_get "api" kv = None
   \/ exists akv,
        dict_get "api" kv = Some (PyDict akv)
        /\ (match dict_get "url" akv with
            | Some u => truthy u = false
            | None => True
            end
            \/ match dict_get "token" akv with
               | Some t => truthy t = false
               | None => True
               end)) ->
  tick w = (Ret tt, w).
Proof.
  intros Hload Hapi. unfold periodic_check, bind at 1.
  destruct (load_data_result w) as [d Hd]. rewrite Hd in *. cbn [fst] in Hload.
  injection Hload as ->. unfold periodic_check_on.
  unfold py_get at 1.
  destruct Hapi as [Hnone | (akv & Hsome & Hfalsy)].
  - rewrite Hnone, bind_ret. reflexivity.
  - rewrite Hsome, bind_ret. unfold py_get. rewrite !bind_ret.
    destruct Hfalsy as [H | H].
    + destruct (dict_get "url" akv) as [u | ]; [rewrite H | ]; reflexivity.
    + destruct (dict_get "token" akv) as [t | ]; [rewrite H | ];
        cbn [truthy negb]; rewrite orb_true_r; reflexivity.
Qed.

(** X4.  A stored state of the wrong shape makes the sweep raise before
    any request: [AttributeError] when the state is not a mapping, and
    [KeyError] when the endpoint is configured and there is no [chats]. *)
Theorem sweep_raises_on_malformed_state (d : value) (w : World) :
  fst (load w) = Ret d ->
  ((forall kv, d <> PyDict kv) ->
   exists msg, tick w = (Raise (mkExn AttributeError msg), w))
  /\ (forall kv akv u t,
        d = PyDict kv ->
        dict_get "api" kv = Some (PyDict akv) ->
        dict_get "url" akv = Some u -> truthy u = true ->
        dict_get "token" akv = Some t -> truthy t = true ->
        dict_get "chats" kv = None ->
        tick w = (Raise (mkExn KeyError "chats"), w)).
Proof.
  intros Hload. destruct (load_data_result w) as [d0 Hd].
  rewrite Hd in Hload. cbn [fst] in Hload. injection Hload as ->.
  split.
  - intros Hshape. unfold periodic_check, bind at 1. rewrite Hd.
    unfold periodic_check_on.
    destruct d as [ | | | | | | kv]; try (eexists; reflexivity).
    elim (Hshape kv). reflexivity.
  - intros kv akv u t -> Hapi Hurl Hu Htok Ht Hchats.
    unfold periodic_check, bind at 1. rewrite Hd. unfold periodic_check_on.
    unfold py_get at 1. rewrite Hapi, bind_ret.
    unfold py_get at 1. rewrite Hurl, bind_ret.
    unfold py_get at 1. rewrite Htok, bind_ret.
    rewrite Hu, Ht. cbn [negb orb]. unfold py_getitem. rewrite Hchats.
    reflexivity.
Qed.

(** *** What a sweep adds to the log *)

Lemma bind_ext {A B} (m : M A) (f g : A -> M B) (w : World) :
  (forall a w', f a w' = g a w') -> bind m f w = bind m g w.
Proof.
  intros H. unfold bind. destruct (m w) as [[a | e] w']; [apply H | reflexivity].
Qed.

Lemma for_each_ext {X} (xs : list X) (f g : X -> M unit) (w : World) :
  (forall x w', f x w' = g x w') -> for_each xs f w = for_each xs g w.
Proof.
  intros H. revert w. induction xs as [ | x rest IH]; intros w; cbn.
  - reflexivity.
  - unfold bind. rewrite H. destruct (g x w) as [[[] | e] w']; auto.
Qed.

Section Appends.

Variable P : list event -> Prop.
Hypothesis P_nil : P [].
Hypothesis P_app : forall a b, P a -> P b -> P (a ++ b).

Lemma appends_same {A} (m : M A) : read_only m -> appends P m.
Proof.
  intros H w. exists []. rewrite H, app_nil_r. auto.
Qed.

Lemma appends_bind {A B} (m : M A) (f : A -> M B) :
  appends P m -> (forall a, appends P (f a)) -> appends P (bind m f).
Proof.
  intros Hm Hf w. unfold bind. destruct (Hm w) as (e1 & H1 & P1).
  destruct (m w) as [[a | e] w1]; cbn [snd] in *.
  - destruct (Hf a w1) as (e2 & H2 & P2). exists (e1 ++ e2)%list.
    rewrite H2, H1, app_assoc. auto.
  - exists e1. auto.
Qed.

Lemma appends_for_each {X} (xs : list X) (body : X -> M unit) :
  (forall x, appends P (body x)) -> appends P (for_each xs body).
Proof.
  intros Hb. induction xs as [ | x rest IH]; cbn.
  - apply appends_same. intros w. reflexivity.
  - apply appends_bind; auto.
Qed.

Lemma read_only_py_get (v : value) (k : string) (dflt : value) :
  read_only (py_get v k dflt).
Proof. destruct v; intros w; reflexivity. Qed.

Lemma read_only_py_getitem (v : value) (k : string) : read_only (py_getitem v k).
Proof.
  destruct v; intros w; try reflexivity. cbn.
  destruct (dict_get k kv); reflexivity.
Qed.

Lemma read_only_py_items (v : value) : read_only (py_items v).
Proof. destruct v; intros w; reflexivity. Qed.

Lemma read_only_py_iter (v : value) : read_only (py_iter v).
Proof. destruct v; intros w; reflexivity. Qed.

Lemma read_only_load : read_only load.
Proof. intros w. now rewrite load_data_spec. Qed.

(** From the steps to the whole sweep. *)
Lemma appends_tick :
  (forall b t chat acc, appends P (probe_account b t chat acc)) ->
  appends P tick.
Proof.
  intros Hstep. unfold periodic_check.
  apply appends_bind; [apply appends_same, read_only_load | ].
  intros d. unfold periodic_check_on.
  apply appends_bind; [apply appends_same, read_only_py_get | ]. intros api.
  apply appends_bind; [apply appends_same, read_only_py_get | ]. intros u.
  apply appends_bind; [apply appends_same, read_only_py_get | ]. intros t.
  destruct (negb (truthy u) || negb (truthy t)).
  - apply appends_same. intros w. reflexivity.
  - apply appends_bind; [apply appends_same, read_only_py_getitem | ].
    intros chats.
    apply appends_bind; [apply appends_same, read_only_py_items | ].
    intros items. unfold sweep. apply appends_for_each. intros item.
    apply appends_bind; [apply appends_same, read_only_py_get | ].
    intros accounts.
    apply appends_bind; [apply appends_same, read_only_py_iter | ].
    intros accs. apply appends_for_each. intros acc. apply Hstep.
Qed.

End Appends.

(** The two shapes of one step: without an endpoint nothing happens; with
    one, a request, followed by a message when the probe says unlocked and
    the chat id is a number. *)
Lemma probe_account_cases (b t : value) (chat : string) (acc : value)
    (w : World) :
  probe_account b t chat acc w = (Ret tt, w)
  \/ (let r := mkRequest b t acc 20 in
      let w1 := mkWorld (data_file w) (log w ++ [EvPost r]) in
      truthy b = true /\ truthy t = true
      /\ probe_account b t chat acc w
         = if probe_says_unlocked json_loads (net (log w) r) then
             match int_of_str chat with
             | Some n =>
                 send_message bot_send n
                   (format_notification (py_format str_of_other acc) true
                      (now (log w1))) w1
             | None => (Raise (mkExn ValueError "invalid literal for int()"), w1)
             end
           else (Ret tt, w1)).
Proof.
  destruct (truthy b) eqn:Hb; [destruct (truthy t) eqn:Ht | ].
  - right. cbv zeta. repeat split. now apply check_account_spec.
  - left. erewrite check_account_decision
      by (apply api_check_unlocked_unconfigured; right; assumption).
    reflexivity.
  - left. erewrite check_account_decision
      by (apply api_check_unlocked_unconfigured; left; assumption).
    reflexivity.
Qed.

Lemma sweep_events_nil : sweep_events [].
Proof. split; [constructor | cbn; lia]. Qed.

Lemma sweep_events_app (a b : list event) :
  sweep_events a -> sweep_events b -> sweep_events (a ++ b).
Proof.
  intros [Fa La] [Fb Lb]. split.
  - apply Forall_app. auto.
  - rewrite sends_app, posts_app, !length_app. lia.
Qed.

Lemma probe_account_sweep_events (b t : value) (chat : string) (acc : value) :
  appends sweep_events (probe_account b t chat acc).
Proof.
  intros w. destruct (probe_account_cases b t chat acc w) as [-> | H].
  - exists []. rewrite app_nil_r. split; [reflexivity | apply sweep_events_nil].
  - cbv zeta in H. destruct H as (_ & _ & ->).
    destruct (probe_says_unlocked _ _).
    + destruct (int_of_str chat) as [n | ].
      * unfold send_message. cbn [log data_file].
        destruct (bot_send _ n _); cbn [snd log]; rewrite <- app_assoc;
          eexists; (split; [reflexivity | ]);
          (split; [ | cbn; lia]);
          repeat constructor; cbn; eauto.
      * cbn [snd log]. eexists. split; [reflexivity | ].
        split; [ | cbn; lia]. repeat constructor.
    + cbn [snd log]. eexists. split; [reflexivity | ].
      split; [ | cbn; lia]. repeat constructor.
Qed.

(** X5.  A sweep only appends to the history, and what it appends are
    requests with the timeout of twenty and notices of the unlocked kind
    (never the banned one), with no more notices than requests. *)
Theorem sweep_appends_sweep_events (w : World) :
  exists ext,
    log (snd (tick w)) = (log w ++ ext)%list
    /\ Forall sweep_event ext
    /\ (length (sends ext) <= length (posts ext))%nat.
Proof.
  apply (appends_tick sweep_events sweep_events_nil sweep_events_app
           probe_account_sweep_events).
Qed.

Lemma silent_app (a b : list event) : silent a -> silent b -> silent (a ++ b).
Proof.
  unfold silent. intros Ha Hb. now rewrite sends_app, Ha, Hb.
Qed.

(** X6.  No notification without an unlocked signal: when no answer of the
    endpoint yields the signal (it is down, or its bodies say nothing of
    the kind), a sweep hands no message to the bot, whatever the store
    holds. *)
Theorem no_signal_no_notification :
  (forall lg r, probe_says_unlocked json_loads (net lg r) = false) ->
  forall w, sends (log (snd (tick w))) = sends (log w).
Proof.
  intros Hnever w.
  assert (appends silent tick) as Happ.
  { apply appends_tick; [reflexivity | apply silent_app | ].
    intros b t chat acc w0.
    destruct (probe_account_cases b t chat acc w0) as [-> | H].
    - exists []. rewrite app_nil_r. split; reflexivity.
    - cbv zeta in H. destruct H as (_ & _ & ->). rewrite Hnever.
      eexists. split; reflexivity. }
  destruct (Happ w) as (ext & -> & Hs). rewrite sends_app, Hs.
  apply app_nil_r.
Qed.

(** X7.  The sweep sees the endpoint through the unlocked signal only: two
    endpoints whose answers yield the same signal (whatever their status
    codes, bodies or failures) give the same sweep. *)
Theorem sweep_sees_only_the_signal
    (net' : list event -> request -> transport) :
  (forall lg r,
     probe_says_unlocked json_loads (net lg r)
     = probe_says_unlocked json_loads (net' lg r)) ->
  forall w,
    tick w
    = periodic_check json_loads net' bot_send now int_of_str str_of_other w.
Proof.
  intros Hsame w.
  assert (forall b t chat acc w0,
            probe_account b t chat acc w0
            = check_account json_loads net' bot_send now int_of_str
                str_of_other b t chat acc w0) as Hstep.
  { intros b t chat acc w0.
    destruct (truthy b) eqn:Hb; [destruct (truthy t) eqn:Ht | ].
    - rewrite !check_account_spec by assumption. cbv zeta.
      now rewrite Hsame.
    - erewrite !check_account_decision
        by (apply api_check_unlocked_unconfigured; right; assumption).
      reflexivity.
    - erewrite !check_account_decision
        by (apply api_check_unlocked_unconfigured; left; assumption).
      reflexivity. }
  unfold periodic_check. apply bind_ext. intros d w1.
  unfold periodic_check_on.
  apply bind_ext. intros api w2. apply bind_ext. intros u w3.
  apply bind_ext. intros t w4.
  destruct (negb (truthy u) || negb (truthy t)); [reflexivity | ].
  apply bind_ext. intros chats w5. apply bind_ext. intros items w6.
  unfold sweep. apply for_each_ext. intros item w7.
  apply bind_ext. intros accounts w8. apply bind_ext. intros accs w9.
  apply for_each_ext. intros acc w10. apply Hstep.
Qed.

(** *** The interval of a subscriber *)

Lemma dict_get_dict_set_same (k : string) (v : value)
    (kv : list (string * value)) :
  dict_get k (dict_set k v kv) = Some v.
Proof.
  induction kv as [ | [k0 v0] rest IH]; cbn.
  - now rewrite String.eqb_refl.
  - destruct (String.eqb_spec k k0) as [-> | Hne]; cbn.
    + now rewrite String.eqb_refl.
    + destruct (String.eqb_spec k k0); [contradiction | exact IH].
Qed.

Lemma dict_set_twice (k : string) (v v0 : value) (kv : list (string * value)) :
  dict_set k v (dict_set k v0 kv) = dict_set k v kv.
Proof.
  induction kv as [ | [k1 v1] rest IH]; cbn.
  - now rewrite String.eqb_refl.
  - destruct (String.eqb_spec k k1) as [-> | Hne]; cbn.
    + now rewrite String.eqb_refl.
    + destruct (String.eqb_spec k k1); [contradiction | now rewrite IH].
Qed.

Lemma py_get_with_interval (v cfg : value) (dflt : value) :
  py_get (with_interval v cfg) "accounts" dflt = py_get cfg "accounts" dflt.
Proof.
  destruct cfg; try reflexivity. cbn.
  rewrite dict_get_dict_set_other by discriminate. reflexivity.
Qed.

(** X8.  The sweep does not look at [interval_min]: giving every
    subscriber any other interval leaves the sweep the same computation. *)
Theorem sweep_ignores_interval (kv items : list (string * value))
    (f : string -> value) (w : World) :
  dict_get "chats" kv = Some (PyDict items) ->
  tick_on
    (PyDict
       (dict_set "chats"
          (PyDict (map (fun it => (fst it, with_interval (f (fst it)) (snd it)))
                     items)) kv)) w
  = tick_on (PyDict kv) w.
Proof.
  intros Hchats. unfold periodic_check_on, py_get at 1 4.
  rewrite dict_get_dict_set_other by discriminate.
  apply bind_ext. intros api w1. apply bind_ext. intros u w2.
  apply bind_ext. intros t w3.
  destruct (negb (truthy u) || negb (truthy t)); [reflexivity | ].
  unfold py_getitem. rewrite dict_get_dict_set_same, Hchats, !bind_ret.
  unfold py_items. rewrite !bind_ret. clear Hchats. revert w3.
  unfold sweep. induction items as [ | [chat cfg] rest IH]; intros w3.
  - reflexivity.
  - cbn [map for_each fst snd]. rewrite py_get_with_interval.
    apply bind_ext. intros [] w4. apply IH.
Qed.

(** ** The handlers *)

Lemma read_only_bind {A B} (m : M A) (f : A -> M B) :
  read_only m -> (forall a, read_only (f a)) -> read_only (bind m f).
Proof.
  intros Hm Hf w. unfold bind. specialize (Hm w).
  destruct (m w) as [[a | e] w']; cbn [snd] in *; subst w'.
  - apply Hf.
  - reflexivity.
Qed.

Lemma read_only_ret {A} (a : A) : read_only (ret a).
Proof. intros w. reflexivity. Qed.

Lemma read_only_py_setitem (v : value) (k : string) (x : value) :
  read_only (py_setitem v k x).
Proof. destruct v; intros w; reflexivity. Qed.

Lemma read_only_py_setdefault (v : value) (k : string) (dflt : value) :
  read_only (py_setdefault v k dflt).
Proof.
  destruct v; intros w; try reflexivity. cbn.
  destruct (dict_get k kv); reflexivity.
Qed.

Lemma read_only_py_append (v x : value) : read_only (py_append v x).
Proof. destruct v; intros w; reflexivity. Qed.

Lemma read_only_add_account (d : value) (chat acc : string) :
  read_only (add_account d chat acc).
Proof.
  unfold add_account.
  repeat (apply read_only_bind;
          [first [ apply read_only_py_getitem | apply read_only_py_setdefault
                 | apply read_only_py_append | apply read_only_py_setitem ]
          | intro ]).
  apply read_only_py_setitem.
Qed.

Lemma read_only_set_api_field (d : value) (field val : string) :
  read_only (set_api_field d field val).
Proof.
  unfold set_api_field.
  repeat (apply read_only_bind;
          [first [ apply read_only_py_getitem | apply read_only_py_setitem ]
          | intro ]).
  apply read_only_py_setitem.
Qed.

(** An update command: load, change the state in memory, save, reply. *)
Lemma update_command (change : value -> M value) (reply : string) (w : World)
    (d : value) :
  read_only (change d) ->
  fst (load w) = Ret d ->
  (d0 <- load ;; d' <- change d0 ;; save d' ;;; ret reply) w
  = match fst (change d w) with
    | Ret d' =>
        match save d' w with
        | (Ret _, w') => (Ret reply, w')
        | (Raise e, w') => (Raise e, w')
        end
    | Raise e => (Raise e, w)
    end.
Proof.
  intros Hpure Hload. destruct (load_data_result w) as [d0 Hd].
  rewrite Hd in Hload. cbn [fst] in Hload. injection Hload as ->.
  unfold bind at 1. rewrite Hd. unfold bind at 1.
  specialize (Hpure w). destruct (change d w) as [[d' | e] w1];
    cbn [fst snd] in *; subst w1; [ | reflexivity].
  unfold bind, ret. destruct (save d' w) as [[[] | e] w']; reflexivity.
Qed.

Lemma add_account_result (kv items ckv : list (string * value)) (chat acc : string)
    (l : list value) (w : World) :
  dict_get "chats" kv = Some (PyDict items) ->
  match dict_get chat items with Some c => c | None => new_cfg end = PyDict ckv ->
  dict_get "accounts" ckv = Some (PyList l) ->
  add_account (PyDict kv) chat acc w
  = (Ret (PyDict
            (dict_set "chats"
               (PyDict
                  (dict_set chat
                     (PyDict (dict_set "accounts" (PyList (l ++ [PyStr acc])) ckv))
                     items)) kv)), w).
Proof.
  intros Hchats Hcfg Hacc. unfold add_account.
  unfold py_getitem at 1. rewrite Hchats, bind_ret.
  unfold py_setdefault.
  destruct (dict_get chat items) as [c | ]; rewrite bind_ret; cbn [fst snd];
    rewrite Hcfg; unfold py_getitem; rewrite Hacc, bind_ret;
    unfold py_append; rewrite bind_ret; unfold py_setitem at 1;
    rewrite bind_ret; unfold py_setitem; rewrite bind_ret;
    rewrite ?dict_set_twice; reflexivity.
Qed.

(** X9.  [cmd_add] appends: on a state whose [chats] is a mapping, for a
    subscriber that is new or whose [accounts] is a list [l], the command
    saves a state in which that subscriber's accounts are [l] followed by
    the stripped argument (already tracked or not), every other subscriber
    and every other top-level key are as before, and replies with the
    account. *)
Theorem cmd_add_appends (a : string) (rest : list string) (chat_id : Z)
    (w : World) (d : value) (items : list (string * value)) (l : list value) :
  data_file w <> FUnreadable -> no_write_fault ->
  fst (load w) = Ret d ->
  top_field d "chats" = Some (PyDict items) ->
  accounts_of d (chat_key chat_id) = Some l
  \/ (dict_get (chat_key chat_id) items = None /\ l = []) ->
  exists d',
    cmd_add (a :: rest) chat_id w
    = (Ret ("Đã thêm: " ++ py_strip a),
       mkWorld (FContent (join (json_iterencode d'))) (log w))
    /\ accounts_of d' (chat_key chat_id) = Some (l ++ [PyStr (py_strip a)])%list
    /\ (forall c, c <> chat_key chat_id -> chat_cfg d' c = chat_cfg d c)
    /\ (forall k, k <> "chats" -> top_field d' k = top_field d k).
Proof.
  intros Hw Hok Hload Hchats Hl.
  destruct d as [ | | | | | | kv]; try discriminate. cbn in Hchats.
  set (chat := chat_key chat_id) in *.
  assert (exists ckv,
            match dict_get chat items with Some c => c | None => new_cfg end
            = PyDict ckv
            /\ dict_get "accounts" ckv = Some (PyList l))
    as (ckv & Hcfg & Hacc).
  { destruct Hl as [Hl | [Hnew ->]].
    - cbn in Hl. rewrite Hchats in Hl.
      destruct (dict_get chat items) as [[ | | | | | | ckv] | ];
        try discriminate.
      exists ckv. split; [reflexivity | ].
      destruct (dict_get "accounts" ckv) as [[ | | | | | l0 | ] | ];
        try discriminate.
      now injection Hl as ->.
    - rewrite Hnew. eexists. split; reflexivity. }
  eexists. unfold cmd_add. fold chat.
  rewrite (update_command (fun d0 => add_account d0 chat (py_strip a)) _ w
             (PyDict kv) (read_only_add_account _ _ _) Hload).
  rewrite (add_account_result kv items ckv chat (py_strip a) l w Hchats Hcfg Hacc).
  cbn [fst]. rewrite save_data_ok by assumption.
  split; [reflexivity | ]. cbn [accounts_of chat_cfg top_field].
  rewrite !dict_get_dict_set_same. repeat split.
  - intros c Hc. rewrite Hchats. now apply dict_get_dict_set_other.
  - intros k Hk. now apply dict_get_dict_set_other.
Qed.

Lemma set_api_field_result (kv akv : list (string * value))
    (field val : string) (w : World) :
  dict_get "api" kv = Some (PyDict akv) ->
  set_api_field (PyDict kv) field val w
  = (Ret (PyDict (dict_set "api" (PyDict (dict_set field (PyStr val) akv)) kv)),
     w).
Proof.
  intros Hapi. unfold set_api_field, py_getitem. rewrite Hapi. reflexivity.
Qed.

(** X10.  An update that fails in memory writes nothing: when changing the
    loaded state raises, [cmd_add], [cmd_setapi] and [cmd_settoken] raise
    the same exception and the world is as before; in particular a stored
    mapping without [chats] (for [cmd_add]) or without [api] (for the two
    others) gives [KeyError]. *)
Theorem failed_update_writes_nothing (a : string) (rest : list string)
    (chat_id : Z) (w : World) (d : value) :
  fst (load w) = Ret d ->
  (forall e,
     fst (add_account d (chat_key chat_id) (py_strip a) w) = Raise e ->
     cmd_add (a :: rest) chat_id w = (Raise e, w))
  /\ (forall e,
        fst (set_api_field d "url" (py_strip a) w) = Raise e ->
        cmd_setapi (a :: rest) w = (Raise e, w))
  /\ (forall e,
        fst (set_api_field d "token" (py_strip a) w) = Raise e ->
        cmd_settoken (a :: rest) w = (Raise e, w))
  /\ (forall kv,
        d = PyDict kv -> dict_get "chats" kv = None ->
        cmd_add (a :: rest) chat_id w = (Raise (mkExn KeyError "chats"), w))
  /\ (forall kv,
        d = PyDict kv -> dict_get "api" kv = None ->
        cmd_setapi (a :: rest) w = (Raise (mkExn KeyError "api"), w)
        /\ cmd_settoken (a :: rest) w = (Raise (mkExn KeyError "api"), w)).
Proof.
  intros Hload.
  assert (forall e,
            fst (add_account d (chat_key chat_id) (py_strip a) w) = Raise e ->
            cmd_add (a :: rest) chat_id w = (Raise e, w)) as Hadd.
  { intros e He. unfold cmd_add.
    rewrite (update_command
               (fun d0 => add_account d0 (chat_key chat_id) (py_strip a)) _ w d
               (read_only_add_account _ _ _) Hload).
    now rewrite He. }
  assert (forall e,
            fst (set_api_field d "url" (py_strip a) w) = Raise e ->
            cmd_setapi (a :: rest) w = (Raise e, w)) as Hurl.
  { intros e He. unfold cmd_setapi.
    rewrite (update_command (fun d0 => set_api_field d0 "url" (py_strip a)) _ w d
               (read_only_set_api_field _ _ _) Hload).
    now rewrite He. }
  assert (forall e,
            fst (set_api_field d "token" (py_strip a) w) = Raise e ->
            cmd_settoken (a :: rest) w = (Raise e, w)) as Htok.
  { intros e He. unfold cmd_settoken.
    rewrite (update_command (fun d0 => set_api_field d0 "token" (py_strip a)) _ w d
               (read_only_set_api_field _ _ _) Hload).
    now rewrite He. }
  repeat split; try assumption.
  - intros kv -> Hnone. apply Hadd.
    unfold add_account, py_getitem at 1. now rewrite Hnone.
  - apply Hurl. subst d. unfold set_api_field, py_getitem. now rewrite H0.
  - apply Htok. subst d. unfold set_api_field, py_getitem. now rewrite H0.
Qed.

(** X11.  [cmd_setapi] and [cmd_settoken] change one field: on a state
    whose [api] is a mapping, each saves a state in which its field of
    [api] is the stripped argument, the other fields of [api] and every
    other top-level key are as before. *)
Theorem endpoint_commands_set_one_field (a : string) (rest : list string)
    (w : World) (d : value) (akv : list (string * value)) :
  data_file w <> FUnreadable -> no_write_fault ->
  fst (load w) = Ret d ->
  top_field d "api" = Some (PyDict akv) ->
  (exists d',
     cmd_setapi (a :: rest) w
     = (Ret ("Đã lưu API URL: " ++ py_strip a),
        mkWorld (FContent (join (json_iterencode d'))) (log w))
     /\ api_field d' "url" = Some (PyStr (py_strip a))
     /\ (forall k, k <> "url" -> api_field d' k = api_field d k)
     /\ (forall k, k <> "api" -> top_field d' k = top_field d k))
  /\ (exists d',
        cmd_settoken (a :: rest) w
        = (Ret "Đã lưu Bearer token.",
           mkWorld (FContent (join (json_iterencode d'))) (log w))
        /\ api_field d' "token" = Some (PyStr (py_strip a))
        /\ (forall k, k <> "token" -> api_field d' k = api_field d k)
        /\ (forall k, k <> "api" -> top_field d' k = top_field d k)).
Proof.
  intros Hw Hok Hload Hapi.
  destruct d as [ | | | | | | kv]; try discriminate. cbn in Hapi.
  split; eexists.
  - unfold cmd_setapi.
    rewrite (update_command (fun d0 => set_api_field d0 "url" (py_strip a)) _ w
               (PyDict kv) (read_only_set_api_field _ _ _) Hload).
    rewrite (set_api_field_result kv akv _ _ w Hapi). cbn [fst].
    rewrite save_data_ok by assumption. split; [reflexivity | ].
    cbn [api_field top_field]. rewrite !dict_get_dict_set_same, Hapi.
    repeat split.
    + intros k Hk. now apply dict_get_dict_set_other.
    + intros k Hk. now apply dict_get_dict_set_other.
  - unfold cmd_settoken.
    rewrite (update_command (fun d0 => set_api_field d0 "token" (py_strip a)) _ w
               (PyDict kv) (read_only_set_api_field _ _ _) Hload).
    rewrite (set_api_field_result kv akv _ _ w Hapi). cbn [fst].
    rewrite save_data_ok by assumption. split; [reflexivity | ].
    cbn [api_field top_field]. rewrite !dict_get_dict_set_same, Hapi.
    repeat split.
    + intros k Hk. now apply dict_get_dict_set_other.
    + intros k Hk. now apply dict_get_dict_set_other.
Qed.

(** X12.  The commands that only read leave the world as it is: [cmd_list]
    (an unknown subscriber is shown the default entry, not given one),
    [cmd_testnotify], and every command called without an argument. *)
Theorem reading_commands_change_nothing (chat_id : Z) (args : list string)
    (w : World) :
  snd (cmd_list chat_id w) = w
  /\ snd (cmd_testnotify args w) = w
  /\ cmd_add [] chat_id w = (Ret "Dùng: /add <account>", w)
  /\ cmd_setapi [] w = (Ret "Dùng: /setapi <url>", w)
  /\ cmd_settoken [] w = (Ret "Dùng: /settoken <token>", w).
Proof.
  split; [ | split; [ | repeat split]].
  - revert w. change (read_only (cmd_list chat_id)). unfold cmd_list.
    repeat (apply read_only_bind;
            [first [ apply read_only_load | apply read_only_py_getitem
                   | apply read_only_py_get | apply read_only_py_iter ]
            | intro ]).
    apply read_only_ret.
  - destruct args; reflexivity.
Qed.

(** *** From a fresh install to the first probe *)

Lemma load_after_save (v : value) (lg : list event) :
  reads_back v ->
  fst (load (mkWorld (FContent (join (json_iterencode v))) lg)) = Ret v.
Proof.
  intros H. rewrite load_data_spec. cbn [fst data_file]. now rewrite H.
Qed.

Lemma cmd_setapi_on (u0 t0 : string) (chats : list (string * value))
    (a : string) (rest : list string) (w : World) :
  data_file w <> FUnreadable -> no_write_fault ->
  fst (load w) = Ret (store_with u0 t0 chats) ->
  cmd_setapi (a :: rest) w
  = (Ret ("Đã lưu API URL: " ++ py_strip a),
     mkWorld (FContent (join (json_iterencode (store_with (py_strip a) t0 chats))))
       (log w)).
Proof.
  intros Hw Hok Hload. unfold cmd_setapi.
  rewrite (update_command (fun d0 => set_api_field d0 "url" (py_strip a)) _ w _
             (read_only_set_api_field _ _ _) Hload).
  change (fst (set_api_field (store_with u0 t0 chats) "url" (py_strip a) w))
    with (@Ret value (store_with (py_strip a) t0 chats)).
  cbv beta iota. now rewrite save_data_ok.
Qed.

Lemma cmd_settoken_on (u0 t0 : string) (chats : list (string * value))
    (a : string) (rest : list string) (w : World) :
  data_file w <> FUnreadable -> no_write_fault ->
  fst (load w) = Ret (store_with u0 t0 chats) ->
  cmd_settoken (a :: rest) w
  = (Ret "Đã lưu Bearer token.",
     mkWorld (FContent (join (json_iterencode (store_with u0 (py_strip a) chats))))
       (log w)).
Proof.
  intros Hw Hok Hload. unfold cmd_settoken.
  rewrite (update_command (fun d0 => set_api_field d0 "token" (py_strip a)) _ w _
             (read_only_set_api_field _ _ _) Hload).
  change (fst (set_api_field (store_with u0 t0 chats) "token" (py_strip a) w))
    with (@Ret value (store_with u0 (py_strip a) chats)).
  cbv beta iota. now rewrite save_data_ok.
Qed.

Lemma cmd_add_first (u0 t0 : string) (a : string) (rest : list string)
    (chat_id : Z) (w : World) :
  data_file w <> FUnreadable -> no_write_fault ->
  fst (load w) = Ret (store_with u0 t0 []) ->
  cmd_add (a :: rest) chat_id w
  = (Ret ("Đã thêm: " ++ py_strip a),
     mkWorld
       (FContent
          (join (json_iterencode
                   (store_with u0 t0
                      [(chat_key chat_id, one_account_cfg (py_strip a))]))))
       (log w)).
Proof.
  intros Hw Hok Hload. unfold cmd_add.
  rewrite (update_command
             (fun d0 => add_account d0 (chat_key chat_id) (py_strip a)) _ w _
             (read_only_add_account _ _ _) Hload).
  unfold store_with at 1.
  rewrite (add_account_result
             [("chats", PyDict []);
              ("api", PyDict [("url", PyStr u0); ("token", PyStr t0)]);
              ("last_seen_unlocked", PyDict []); ("include_raw", PyBool false)]
             [] [("accounts", PyList []); ("interval_min", PyInt 5)]
             (chat_key chat_id) (py_strip a) [] w eq_refl eq_refl eq_refl).
  cbn [fst]. now rewrite save_data_ok.
Qed.

Lemma tick_one_account (u t chat a : string) (w : World) :
  fst (load w) = Ret (store_with u t [(chat, one_account_cfg a)]) ->
  u <> EmptyString -> t <> EmptyString ->
  posts (log (snd (tick w)))
  = (posts (log w) ++ [mkRequest (PyStr u) (PyStr t) (PyStr a) 20])%list.
Proof.
  intros Hload Hu Ht. destruct (load_data_result w) as [d Hd].
  rewrite Hd in Hload. cbn [fst] in Hload. injection Hload as ->.
  unfold periodic_check, bind at 1. rewrite Hd. unfold periodic_check_on.
  change (py_get (store_with u t [(chat, one_account_cfg a)]) "api" (PyDict []))
    with (@ret value (PyDict [("url", PyStr u); ("token", PyStr t)])).
  rewrite bind_ret.
  change (py_get (PyDict [("url", PyStr u); ("token", PyStr t)]) "url" PyNone)
    with (@ret value (PyStr u)).
  rewrite bind_ret.
  change (py_get (PyDict [("url", PyStr u); ("token", PyStr t)]) "token" PyNone)
    with (@ret value (PyStr t)).
  rewrite bind_ret.
  assert (truthy (PyStr u) = true) as Hut by (destruct u; [contradiction | reflexivity]).
  assert (truthy (PyStr t) = true) as Htt by (destruct t; [contradiction | reflexivity]).
  rewrite Hut, Htt. cbn [negb orb].
  change (py_getitem (store_with u t [(chat, one_account_cfg a)]) "chats")
    with (@ret value (PyDict [(chat, one_account_cfg a)])).
  rewrite bind_ret. unfold py_items. rewrite bind_ret.
  unfold sweep. cbn [for_each fst snd].
  change (py_get (one_account_cfg a) "accounts" (PyList []))
    with (@ret value (PyList [PyStr a])).
  unfold bind at 1. rewrite bind_ret. unfold py_iter. rewrite bind_ret.
  cbn [for_each]. unfold bind at 1. rewrite check_account_spec by assumption.
  cbv zeta.
  destruct (probe_says_unlocked _ _);
    [ destruct (int_of_str chat) as [n | ];
      [ unfold send_message; cbn [log data_file]; destruct (bot_send _ n _) | ]
    | ];
    unfold ret; cbn [snd log]; rewrite ?posts_app; cbn [posts flat_map app];
    rewrite ?app_nil_r; reflexivity.
Qed.

(** X13.  From a fresh install to the first probe: with no data file,
    [/setapi u], [/settoken t] and [/add a] leave a store with that
    endpoint and that one subscription, and the next sweep posts exactly one
    request, for the stripped account at the stripped URL with the stripped
    token (which must not be empty), whatever the endpoint and the bot do.
    (No write fails, and the codec reads back the three states saved.) *)
Theorem fresh_install_flow (u t a : string) (chat_id : Z) (w : World) :
  data_file w = FAbsent -> no_write_fault ->
  py_strip u <> EmptyString -> py_strip t <> EmptyString ->
  reads_back (store_with (py_strip u) EmptyString []) ->
  reads_back (store_with (py_strip u) (py_strip t) []) ->
  reads_back (store_with (py_strip u) (py_strip t)
                [(chat_key chat_id, one_account_cfg (py_strip a))]) ->
  let w3 :=
    snd ((cmd_setapi [u] ;;; cmd_settoken [t] ;;; cmd_add [a] chat_id) w) in
  fst (load w3)
  = Ret (store_with (py_strip u) (py_strip t)
           [(chat_key chat_id, one_account_cfg (py_strip a))])
  /\ posts (log (snd (tick w3)))
     = (posts (log w)
        ++ [mkRequest (PyStr (py_strip u)) (PyStr (py_strip t))
              (PyStr (py_strip a)) 20])%list.
Proof.
  intros Hw Hok Hu Ht Hb1 Hb2 Hb3.
  assert ((cmd_setapi [u] ;;; cmd_settoken [t] ;;; cmd_add [a] chat_id) w
          = (Ret ("Đã thêm: " ++ py_strip a),
             mkWorld
               (FContent
                  (join (json_iterencode
                           (store_with (py_strip u) (py_strip t)
                              [(chat_key chat_id, one_account_cfg (py_strip a))]))))
               (log w))) as Hrun.
  { unfold bind at 1.
    rewrite (cmd_setapi_on EmptyString EmptyString [] u [] w)
      by (try assumption; try (rewrite Hw; discriminate);
          rewrite load_data_spec, Hw; reflexivity).
    unfold bind at 1.
    rewrite (cmd_settoken_on (py_strip u) EmptyString [] t [])
      by (try assumption; try discriminate; now apply load_after_save).
    cbn [log].
    rewrite (cmd_add_first (py_strip u) (py_strip t) a [] chat_id)
      by (try assumption; try discriminate; now apply load_after_save).
    reflexivity. }
  cbv zeta. rewrite Hrun. cbn [snd]. split.
  - now apply load_after_save.
  - rewrite (tick_one_account (py_strip u) (py_strip t) (chat_key chat_id)
               (py_strip a)); [reflexivity | | assumption | assumption].
    now apply load_after_save.
Qed.

(** *** More on the probe and on the commands *)

(** X15.  A body that is not JSON degrades the probe, it does not fail it:
    the result has [unlocked = False], the text of the body in [raw], the
    status code in [status], and [ok] by the status code. *)
Theorem probe_unparsable_body (base_url bearer account : value) (w : World)
    (code : Z) (text : string) :
  truthy base_url = true -> truthy bearer = true ->
  net (log w) (mkRequest base_url bearer account 20) = NetResp code text ->
  json_loads text = None ->
  fst (api_check_unlocked json_loads net base_url bearer account w)
  = Ret (mkOut (code <? 400) false (PyStr text) (PyInt code)).
Proof.
  intros Hu Hb Hnet Hparse.
  rewrite api_check_unlocked_configured by assumption. cbv zeta.
  now rewrite Hnet, Hparse.
Qed.

Lemma truthy_false_iff (u : value) : truthy u = false <-> falsy_literal u.
Proof.
  unfold falsy_literal. split.
  - destruct u as [ | [] | n | [] | [] | [] | []]; cbn; try discriminate;
      eauto 10.
    intros H. apply negb_false_iff, Z.eqb_eq in H. subst. auto.
  - intros [-> | [-> | [-> | [[s ->] | [-> | [-> | ->]]]]]]; reflexivity.
Qed.

(** X16.  The signal is the truthiness of the value, not the value: for a
    body with a top-level [unlocked], the probe reports [unlocked = False]
    exactly for [null], [false], [0], a zero float, the empty string, the
    empty list and the empty mapping; a string such as ["false"] counts as
    unlocked. *)
Theorem probe_unlocked_is_truthiness (base_url bearer account : value)
    (w : World) (code : Z) (text : string) (parsed u : value)
    (out : ProbeResult) :
  truthy base_url = true -> truthy bearer = true ->
  net (log w) (mkRequest base_url bearer account 20) = NetResp code text ->
  json_loads text = Some parsed ->
  rule1 parsed u ->
  fst (api_check_unlocked json_loads net base_url bearer account w) = Ret out ->
  (unlocked out = false <-> falsy_literal u)
  /\ (forall s, u = PyStr s -> s <> EmptyString -> unlocked out = true).
Proof.
  intros Hu Hb Hnet Hparse Hrule.
  rewrite api_check_unlocked_configured by assumption. cbv zeta.
  rewrite Hnet, Hparse, (extract_unlocked_rule1 _ _ Hrule). cbn [fst].
  intros [= <-]. cbn [unlocked]. split.
  - apply truthy_false_iff.
  - intros s -> Hs. destruct s; [contradiction | reflexivity].
Qed.

(** X17.  A file that does not parse is replaced, not repaired: [cmd_add]
    on such a file succeeds and saves the default state with the one new
    subscription, so whatever endpoint the file held is gone. *)
Theorem cmd_add_resets_corrupt_file (a : string) (rest : list string)
    (chat_id : Z) (w : World) (text : string) :
  data_file w = FContent text -> json_loads text = None ->
  no_write_fault ->
  cmd_add (a :: rest) chat_id w
  = (Ret ("Đã thêm: " ++ py_strip a),
     mkWorld
       (FContent
          (join (json_iterencode
                   (store_with EmptyString EmptyString
                      [(chat_key chat_id, one_account_cfg (py_strip a))]))))
       (log w)).
Proof.
  intros Hf Hparse Hok. apply cmd_add_first; [ | assumption | ].
  - rewrite Hf. discriminate.
  - rewrite load_data_spec, Hf, Hparse. reflexivity.
Qed.

(** X18.  The two endpoint commands commute: on a store of the default
    shape, [/setapi] then [/settoken] leaves the same world as [/settoken]
    then [/setapi].  (No write fails, and the codec reads back the state
    saved in between.) *)
Theorem endpoint_commands_commute (u0 t0 : string)
    (chats : list (string * value)) (u t : string) (w : World) :
  data_file w <> FUnreadable -> no_write_fault ->
  fst (load w) = Ret (store_with u0 t0 chats) ->
  reads_back (store_with (py_strip u) t0 chats) ->
  reads_back (store_with u0 (py_strip t) chats) ->
  snd ((cmd_setapi [u] ;;; cmd_settoken [t]) w)
  = snd ((cmd_settoken [t] ;;; cmd_setapi [u]) w)
  /\ data_file (snd ((cmd_setapi [u] ;;; cmd_settoken [t]) w))
     = FContent (join (json_iterencode
                         (store_with (py_strip u) (py_strip t) chats))).
Proof.
  intros Hw Hok Hload Hb1 Hb2.
  assert (snd ((cmd_setapi [u] ;;; cmd_settoken [t]) w)
          = mkWorld
              (FContent (join (json_iterencode
                                 (store_with (py_strip u) (py_strip t) chats))))
              (log w)) as H1.
  { unfold bind. rewrite (cmd_setapi_on u0 t0 chats u [] w) by assumption.
    rewrite (cmd_settoken_on (py_strip u) t0 chats t [])
      by (try assumption; try discriminate; now apply load_after_save).
    reflexivity. }
  assert (snd ((cmd_settoken [t] ;;; cmd_setapi [u]) w)
          = mkWorld
              (FContent (join (json_iterencode
                                 (store_with (py_strip u) (py_strip t) chats))))
              (log w)) as H2.
  { unfold bind. rewrite (cmd_settoken_on u0 t0 chats t [] w) by assumption.
    rewrite (cmd_setapi_on u0 (py_strip t) chats u [])
      by (try assumption; try discriminate; now apply load_after_save).
    reflexivity. }
  rewrite H1, H2. split; reflexivity.
Qed.

(** *** Saving in place *)

Lemma substring_all (a : string) : substring 0 (String.length a) a = a.
Proof.
  induction a as [ | c a IH]; cbn; [reflexivity | now rewrite IH].
Qed.

Lemma save_data_unopenable (d : value) (w : World) :
  data_file w = FUnreadable -> snd (save d w) = w.
Proof.
  intros Hw. unfold save_data, bind, open_w. now rewrite Hw.
Qed.

(** What a save leaves in the file: what was there when the file cannot be
    opened, and otherwise the first bytes of the new text. *)
Lemma save_file_prefix (d : value) (w : World) :
  data_file (snd (save d w)) = data_file w
  \/ exists n,
       data_file (snd (save d w))
       = FContent (substring 0 n (join (json_iterencode d))).
Proof.
  destruct (data_file w) eqn:Hw.
  - right. rewrite save_data_start by (rewrite Hw; discriminate).
    rewrite flush_buffer_spec. cbn [snd data_file append].
    eexists. now rewrite <- written_prefix.
  - left. now rewrite save_data_unopenable.
  - right. rewrite save_data_start by (rewrite Hw; discriminate).
    rewrite flush_buffer_spec. cbn [snd data_file append].
    eexists. now rewrite <- written_prefix.
Qed.

Lemma save_file_complete (d : value) (w : World) :
  no_write_fault ->
  data_file (snd (save d w)) = data_file w
  \/ data_file (snd (save d w)) = FContent (join (json_iterencode d)).
Proof.
  intros Hok. destruct (data_file w) eqn:Hw.
  - right. rewrite save_data_ok by (try assumption; rewrite Hw; discriminate).
    reflexivity.
  - left. now rewrite save_data_unopenable.
  - right. rewrite save_data_ok by (try assumption; rewrite Hw; discriminate).
    reflexivity.
Qed.

(** The world after an update command is the one before it, or the one its
    save leaves. *)
Lemma update_command_world (change : value -> M value) (reply : string)
    (w : World) :
  (forall d, read_only (change d)) ->
  snd ((d0 <- load ;; d' <- change d0 ;; save d' ;;; ret reply) w) = w
  \/ exists d',
       snd ((d0 <- load ;; d' <- change d0 ;; save d' ;;; ret reply) w)
       = snd (save d' w).
Proof.
  intros Hpure. destruct (load_data_result w) as [d Hd].
  rewrite (update_command change reply w d (Hpure d))
    by (rewrite Hd; reflexivity).
  destruct (fst (change d w)) as [d' | e]; [ | left; reflexivity].
  right. exists d'. destruct (save d' w) as [[[] | e] w']; reflexivity.
Qed.

Lemma read_only_cmd_list (chat_id : Z) : read_only (cmd_list chat_id).
Proof.
  unfold cmd_list.
  repeat (apply read_only_bind;
          [first [ apply read_only_load | apply read_only_py_getitem
                 | apply read_only_py_get | apply read_only_py_iter ]
          | intro ]).
  apply read_only_ret.
Qed.

Lemma read_only_cmd_testnotify (args : list string) :
  read_only (cmd_testnotify args).
Proof. destruct args; intros w; reflexivity. Qed.

(** One turn: the file is as before, or as a save of this turn left it. *)
Lemma turn_file (w0 w : World) :
  reachable w0 w ->
  forall (P : file -> Prop),
    P (data_file w0) ->
    (forall d w1, P (data_file w1) -> P (data_file (snd (save d w1)))) ->
    P (data_file w).
Proof.
  intros Hreach P Hstart Hsave.
  assert (forall (change : value -> M value) (reply : string) (w1 : World),
            (forall d, read_only (change d)) -> P (data_file w1) ->
            P (data_file
                 (snd ((d0 <- load ;; d' <- change d0 ;; save d' ;;; ret reply)
                         w1)))) as Hupdate.
  { intros change reply w1 Hpure HP.
    destruct (update_command_world change reply w1 Hpure) as [-> | [d' ->]];
      auto. }
  induction Hreach as [ | args chat_id w _ IH | chat_id w _ IH | args w _ IH
                        | args w _ IH | args w _ IH | w _ IH
                        | b t acc w _ IH | n text w _ IH ].
  - exact Hstart.
  - destruct args as [ | a rest]; [exact IH | ].
    unfold cmd_add. apply Hupdate; [ | exact IH].
    intros d. apply read_only_add_account.
  - now rewrite read_only_cmd_list.
  - destruct args as [ | a rest]; [exact IH | ].
    unfold cmd_setapi. apply Hupdate; [ | exact IH].
    intros d. apply read_only_set_api_field.
  - destruct args as [ | a rest]; [exact IH | ].
    unfold cmd_settoken. apply Hupdate; [ | exact IH].
    intros d. apply read_only_set_api_field.
  - now rewrite read_only_cmd_testnotify.
  - now rewrite keeps_file_periodic_check.
  - now rewrite keeps_file_api_check_unlocked.
  - now rewrite keeps_file_send_message.
Qed.

(** C3, as the code has it.  [save_data] rewrites the file in place.  When
    the file can be opened, what it holds afterwards is the first [n] bytes
    of the new text, whatever it held before: all of them exactly when
    [save_data] returns, which it does when no write fails, and fewer,
    possibly none and possibly cutting a chunk, when the disk refused a
    byte.  No [load_data] of the program sees a save in progress: in every
    world a sequence of turns can reach, the file is the initial one or what
    a save that has ended left, which is the full text of a state as long as
    no write fails, and the first bytes of one otherwise. *)
Theorem save_data_in_place :
  (forall d w,
     data_file w <> FUnreadable ->
     exists n,
       (n <= String.length (join (json_iterencode d)))%nat
       /\ data_file (snd (save d w))
          = FContent (substring 0 n (join (json_iterencode d)))
       /\ (fst (save d w) = Ret tt
           <-> n = String.length (join (json_iterencode d)))
       /\ (no_write_fault ->
           save d w
           = (Ret tt, mkWorld (FContent (join (json_iterencode d))) (log w))))
  /\ (forall w0 w,
        reachable w0 w -> no_write_fault ->
        data_file w = data_file w0
        \/ exists d, data_file w = FContent (join (json_iterencode d)))
  /\ (forall w0 w,
        reachable w0 w ->
        data_file w = data_file w0
        \/ exists d n,
             data_file w
             = FContent (substring 0 n (join (json_iterencode d)))).
Proof.
  split; [ | split].
  - intros d w Hw.
    exists (String.length (written write_fault EmptyString
                             (join (json_iterencode d)))).
    rewrite save_data_start by assumption. rewrite flush_buffer_spec.
    cbn [fst snd data_file append]. repeat split.
    + apply written_length.
    + now rewrite <- written_prefix.
    + intros H. destruct (_ =? _)%nat eqn:E; [ | discriminate].
      now apply Nat.eqb_eq.
    + intros ->. now rewrite Nat.eqb_refl.
    + intros Hok. rewrite written_no_fault by assumption.
      now rewrite Nat.eqb_refl.
  - intros w0 w Hreach Hok.
    apply (turn_file w0 w Hreach
             (fun f => f = data_file w0
                       \/ exists d, f = FContent (join (json_iterencode d)))).
    + left. reflexivity.
    + intros d w1 HP.
      destruct (save_file_complete d w1 Hok) as [-> | ->]; eauto.
  - intros w0 w Hreach.
    apply (turn_file w0 w Hreach
             (fun f => f = data_file w0
                       \/ exists d n,
                            f = FContent
                                  (substring 0 n (join (json_iterencode d))))).
    + left. reflexivity.
    + intros d w1 HP.
      destruct (save_file_prefix d w1) as [-> | [n ->]]; eauto.
Qed.

End Commands.

(** ** The notification text *)

Lemma length_append (a b : string) :
  String.length (a ++ b) = (String.length a + String.length b)%nat.
Proof.
  induction a as [ | c a IH]; cbn; [reflexivity | now rewrite IH].
Qed.

Lemma append_cancel_l (p a b : string) : (p ++ a = p ++ b -> a = b)%string.
Proof.
  induction p as [ | c p IH]; cbn; [auto | ].
  intros [= H]. auto.
Qed.

Lemma append_cancel_r (s a b : string) : (a ++ s = b ++ s -> a = b)%string.
Proof.
  revert b. induction a as [ | c a IH]; intros [ | c' b] H; cbn in H.
  - reflexivity.
  - apply (f_equal String.length) in H. cbn in H. rewrite length_append in H. lia.
  - apply (f_equal String.length) in H. cbn in H. rewrite length_append in H. lia.
  - injection H as -> H. f_equal. now apply IH.
Qed.

(** X14.  The notification names its account and its status without
    ambiguity: at one instant and with one status, different accounts give
    different texts; and for one account, the unlocked and the banned
    notices differ. *)
Theorem format_notification_injective (a a' : string) (u : bool)
    (t : datetime) :
  (a <> a' -> format_notification a u t <> format_notification a' u t)
  /\ format_notification a true t <> format_notification a false t.
Proof.
  unfold format_notification. split.
  - intros Hne H. apply Hne. repeat (apply append_cancel_l in H).
    now apply append_cancel_r in H.
  - intros H. repeat (apply append_cancel_l in H).
    cbn in H. discriminate H.
Qed.

Import Scenario.

(** The program on the reference codec and the scenario clock. *)
Definition run_periodic_check net bot : M unit :=
  periodic_check MiniJson.loads net bot clock MiniJson.int_of_str
    MiniJson.str_of_other.

Definition run_periodic_check_on net bot : value -> M unit :=
  periodic_check_on MiniJson.loads net bot clock MiniJson.int_of_str
    MiniJson.str_of_other.

Definition probe net : value -> value -> value -> M ProbeResult :=
  api_check_unlocked MiniJson.loads net.

Example store_text_parses : MiniJson.loads store_text = Some store.
Proof. vm_compute. reflexivity. Qed.

Example store2_text_parses : MiniJson.loads store2_text = Some (PyDict store2).
Proof. vm_compute. reflexivity. Qed.

Example default_data_reads_back :
  MiniJson.loads (join (MiniJson.iterencode default_data)) = Some default_data.
Proof. vm_compute. reflexivity. Qed.

(** *** Instances of the theorems *)

Lemma probe_not_configured_witness :
  exists out,
    probe net_unlocked (PyStr EmptyString) token gamer (world_of store_text)
    = (Ret out, world_of store_text)
    /\ status out = PyStr "not-configured"
    /\ ok out = false.
Proof.
  exact (probe_not_configured MiniJson.loads net_unlocked
           (PyStr EmptyString) token gamer (world_of store_text)
           (or_introl eq_refl)).
Defined.

Lemma probe_never_raises_witness :
  exists out,
    fst (probe net_down url token gamer (world_of store_text)) = Ret out
    /\ ok out = false
    /\ status out = PyStr "error"
    /\ raw out = PyStr "Cannot connect to host".
Proof.
  exact (proj2 (probe_never_raises MiniJson.loads net_down url token gamer
                  (world_of store_text))
           (mkExn ClientError "Cannot connect to host") eq_refl eq_refl eq_refl).
Defined.

Lemma probe_ok_iff_below_400_witness :
  ok (mkOut false false (PyStr "{}") (PyInt 404)) = true <-> 404 < 400.
Proof.
  exact (probe_ok_iff_below_400 MiniJson.loads net_404 url token gamer
           (world_of store_text) eq_refl eq_refl
           (mkOut false false (PyStr "{}") (PyInt 404)) eq_refl).
Defined.

Lemma probe_raw_falsy_is_text_witness :
  exists out,
    fst (probe net_404 url token gamer (world_of store_text)) = Ret out
    /\ raw out = PyStr "{}".
Proof.
  destruct (probe_raw_falsy_is_text MiniJson.loads net_404 url token gamer
              (world_of store_text) 404 "{}" (PyDict [])
              eq_refl eq_refl eq_refl eq_refl) as (out & H & Hfalsy & _).
  exists out. split; [exact H | exact (Hfalsy eq_refl)].
Defined.

Lemma probe_unlocked_priority_witness :
  exists out,
    fst (probe net_priority url token gamer (world_of store_text)) = Ret out
    /\ unlocked out = false.
Proof.
  destruct (probe_unlocked_priority MiniJson.loads net_priority url token gamer
              (world_of store_text) 200
              (MiniJson.js "{'unlocked': false, 'status': 'ok', 'data': {'unlocked': true}}")
              priority_body eq_refl eq_refl eq_refl eq_refl)
    as (out & H & _ & _ & _ & Hbody).
  exists out. split; [exact H | exact (Hbody eq_refl)].
Defined.

Lemma load_data_total_witness :
  exists d,
    load_data MiniJson.loads (world_of "{'chats': ")
    = (Ret d, world_of "{'chats': ")
    /\ d = default_data.
Proof.
  destruct (load_data_total MiniJson.loads net_unlocked bot_ok clock
              MiniJson.int_of_str MiniJson.str_of_other (world_of "{'chats': "))
    as (d & H & _ & _ & _ & Hcorrupt & _).
  exists d. split; [exact H | exact (Hcorrupt _ eq_refl eq_refl)].
Defined.

Lemma save_data_in_place_witness :
  (exists n,
     (n <= String.length (join (MiniJson.iterencode store)))%nat
     /\ data_file (snd (save_data MiniJson.iterencode disk_20 store
                          (world_of store_text)))
        = FContent (substring 0 n (join (MiniJson.iterencode store)))
     /\ (fst (save_data MiniJson.iterencode disk_20 store (world_of store_text))
         = Ret tt
         <-> n = String.length (join (MiniJson.iterencode store))))
  /\ (data_file
        (snd (run_periodic_check net_unlocked bot_ok
                (snd (cmd_setapi MiniJson.loads MiniJson.iterencode disk_ok
                        MiniStr.strip ["https://api.example/check"]
                        (world_of store_text)))))
      = data_file (world_of store_text)
      \/ exists d,
           data_file
             (snd (run_periodic_check net_unlocked bot_ok
                     (snd (cmd_setapi MiniJson.loads MiniJson.iterencode disk_ok
                             MiniStr.strip ["https://api.example/check"]
                             (world_of store_text)))))
           = FContent (join (MiniJson.iterencode d))).
Proof.
  split.
  - destruct (proj1 (save_data_in_place MiniJson.loads MiniJson.iterencode
                       disk_20 net_unlocked bot_ok clock MiniJson.int_of_str
                       MiniJson.str_of_other MiniStr.strip)
                store (world_of store_text))
      as (n & Hn & Hfile & Hret & _).
    + discriminate.
    + exists n. repeat split; try assumption; apply Hret.
  - apply (proj1 (proj2 (save_data_in_place MiniJson.loads MiniJson.iterencode
                           disk_ok net_unlocked bot_ok clock MiniJson.int_of_str
                           MiniJson.str_of_other MiniStr.strip))
             (world_of store_text)).
    + apply reach_sweep, reach_cmd_setapi, reach_start.
    + intros t c. reflexivity.
Defined.

Lemma save_load_roundtrip_witness :
  let r := (d <- load_data MiniJson.loads ;;
            save_data MiniJson.iterencode disk_ok d) (world_of store_text) in
  fst r = Ret tt
  /\ fst (load_data MiniJson.loads (snd r))
     = fst (load_data MiniJson.loads (world_of store_text))
  /\ fst (load_data MiniJson.loads (world_of store_text)) = Ret store
  /\ log (snd r) = log (world_of store_text)
  /\ (store_text = join (MiniJson.iterencode store) ->
      snd r = world_of store_text).
Proof.
  apply (save_load_roundtrip MiniJson.loads MiniJson.iterencode disk_ok
           (world_of store_text) store_text store).
  - reflexivity.
  - vm_compute. reflexivity.
  - intros t c. reflexivity.
  - vm_compute. reflexivity.
Defined.

Lemma notify_iff_probe_unlocked_witness :
  sends (log (snd (check_account MiniJson.loads net_unlocked bot_ok clock
                     MiniJson.int_of_str MiniJson.str_of_other
                     url token "1001" gamer (world_of store_text))))
  = [(1001, message "gamer123")].
Proof.
  exact (proj2 (proj2 (notify_iff_probe_unlocked MiniJson.loads net_unlocked
                         bot_ok clock MiniJson.int_of_str MiniJson.str_of_other))
           url token "1001" gamer 1001 (world_of store_text)
           (mkOut true true (PyDict [("unlocked", PyBool true)]) (PyInt 200))
           (mkWorld (FContent store_text) [EvPost (mkRequest url token gamer 20)])
           eq_refl eq_refl).
Defined.

Lemma sweep_survives_probe_errors_witness :
  fst (run_periodic_check_on net_down_once bot_ok (PyDict store2)
         (world_of store2_text)) = Ret tt
  /\ posts (log (snd (run_periodic_check_on net_down_once bot_ok (PyDict store2)
                        (world_of store2_text))))
     = [mkRequest url token (PyStr "alpha") 20;
        mkRequest url token (PyStr "beta") 20].
Proof.
  destruct (sweep_survives_probe_errors MiniJson.loads net_down_once bot_ok
              clock MiniJson.int_of_str MiniJson.str_of_other
              (fun _ _ _ => eq_refl)
              store2 [("url", url); ("token", token)] chats2 url token
              [(1001, PyStr "alpha"); (1001, PyStr "beta")]
              (world_of store2_text)
              eq_refl eq_refl eq_refl eq_refl eq_refl eq_refl eq_refl)
    as [Hrun Hposts].
  split.
  - unfold run_periodic_check_on. rewrite Hrun. reflexivity.
  - exact Hposts.
Defined.

(** *** Where the code departs from the specification *)

(** C1 fails on the code.  The cache of the scenario's store says [true]
    for [gamer123], as after a first notification; the endpoint reports
    unlocked; the sweep still notifies subscriber [1001], and so does the
    sweep after it. *)
Lemma cached_account_is_notified_again :
  fst (load_data MiniJson.loads (world_of store_text)) = Ret store
  /\ cache_entry store "gamer123" = Some (PyBool true)
  /\ sends (log (snd (run_periodic_check net_unlocked bot_ok
                        (world_of store_text))))
     = [(1001, message "gamer123")]
  /\ sends (log (snd (run_periodic_check net_unlocked bot_ok
                        (snd (run_periodic_check net_unlocked bot_ok
                                (world_of store_text))))))
     = [(1001, message "gamer123"); (1001, message "gamer123")].
Proof.
  vm_compute. repeat split.
Qed.

(** C2 fails on the code for a delivery error.  Subscriber [1001] tracks
    [alpha] and [beta], both reported unlocked; the bot refuses the message
    about [alpha]; the exception leaves [periodic_check], and [beta] is never
    probed. *)
Lemma delivery_error_aborts_sweep :
  fst (run_periodic_check net_unlocked bot_blocked (world_of store2_text))
  = Raise (mkExn TelegramError "Forbidden: bot was blocked by the user")
  /\ posts (log (snd (run_periodic_check net_unlocked bot_blocked
                        (world_of store2_text))))
     = [mkRequest url token (PyStr "alpha") 20]
  /\ ~ In (mkRequest url token (PyStr "beta") 20)
          (posts (log (snd (run_periodic_check net_unlocked bot_blocked
                              (world_of store2_text))))).
Proof.
  vm_compute. repeat split. intros [H | []]. discriminate H.
Qed.

(** C3 fails on the code.  The file holds a good state.  A save on a full
    disk raises and leaves the file empty, which then loads as the default
    state; a save on a disk that takes twenty bytes raises and leaves the
    first twenty bytes of the new text, which is not the old text and does
    not parse. *)
Lemma failed_save_loses_previous_state :
  fst (load_data MiniJson.loads (world_of store_text)) = Ret store
  /\ fst (save_data MiniJson.iterencode disk_full store (world_of store_text))
     = Raise (mkExn OSError "write failed")
  /\ data_file (snd (save_data MiniJson.iterencode disk_full store
                       (world_of store_text)))
     = FContent EmptyString
  /\ fst (load_data MiniJson.loads
            (snd (save_data MiniJson.iterencode disk_full store
                    (world_of store_text))))
     = Ret default_data
  /\ fst (save_data MiniJson.iterencode disk_20 store (world_of store_text))
     = Raise (mkExn OSError "write failed")
  /\ data_file (snd (save_data MiniJson.iterencode disk_20 store
                       (world_of store_text)))
     = FContent (substring 0 20 (join (MiniJson.iterencode store)))
  /\ substring 0 20 (join (MiniJson.iterencode store)) <> store_text
  /\ MiniJson.loads (substring 0 20 (join (MiniJson.iterencode store))) = None.
Proof.
  repeat split; try (vm_compute; reflexivity).
  intros H. vm_compute in H. discriminate H.
Qed.

(** *** Instances of the further properties *)

(** A store with a subscriber and a token, and no URL; and an endpoint that
    answers [500] with the unlocked body. *)
Definition no_url_text : string :=
  MiniJson.js
    "{'chats': {'1001': {'accounts': ['gamer123'], 'interval_min': 5}},
      'api': {'url': '', 'token': 'secret'}}".

Definition no_url_store : list (string * value) :=
  [("chats",
    PyDict [("1001", PyDict [("accounts", PyList [gamer]);
                             ("interval_min", PyInt 5)])]);
   ("api", PyDict [("url", PyStr EmptyString); ("token", token)])].

Definition net_500 : list event -> request -> transport :=
  fun _ _ => NetResp 500 (MiniJson.js "{'unlocked': true}").

Definition fresh : World := mkWorld FAbsent [].

Lemma save_then_load_witness :
  (save_data MiniJson.iterencode disk_ok store ;;; load_data MiniJson.loads)
    (world_of store_text)
  = (Ret store, mkWorld (FContent (join (MiniJson.iterencode store))) []).
Proof.
  apply (save_then_load MiniJson.loads MiniJson.iterencode disk_ok store
           (world_of store_text)).
  - discriminate.
  - intros t c. reflexivity.
  - vm_compute. reflexivity.
Defined.

Lemma save_forgets_old_content_witness :
  save_data MiniJson.iterencode disk_20 store (world_of store_text)
  = save_data MiniJson.iterencode disk_20 store fresh.
Proof.
  apply (save_forgets_old_content MiniJson.iterencode disk_20 store
           (world_of store_text) fresh).
  - discriminate.
  - discriminate.
  - reflexivity.
Defined.

Lemma sweep_unconfigured_is_noop_witness :
  run_periodic_check net_unlocked bot_ok (world_of no_url_text)
  = (Ret tt, world_of no_url_text).
Proof.
  apply (sweep_unconfigured_is_noop MiniJson.loads net_unlocked bot_ok clock
           MiniJson.int_of_str MiniJson.str_of_other no_url_store
           (world_of no_url_text)).
  - vm_compute. reflexivity.
  - right. exists [("url", PyStr EmptyString); ("token", token)].
    split; [reflexivity | left; reflexivity].
Defined.

Lemma sweep_raises_on_malformed_state_witness :
  exists msg,
    run_periodic_check net_unlocked bot_ok (world_of "[]")
    = (Raise (mkExn AttributeError msg), world_of "[]").
Proof.
  apply (proj1 (sweep_raises_on_malformed_state MiniJson.loads net_unlocked
                  bot_ok clock MiniJson.int_of_str MiniJson.str_of_other
                  (PyList []) (world_of "[]") eq_refl)).
  intros kv. discriminate.
Defined.

Lemma no_signal_no_notification_witness :
  sends (log (snd (run_periodic_check net_down bot_ok (world_of store_text))))
  = sends (log (world_of store_text)).
Proof.
  apply (no_signal_no_notification MiniJson.loads net_down bot_ok clock
           MiniJson.int_of_str MiniJson.str_of_other).
  intros lg r. reflexivity.
Defined.

Lemma sweep_sees_only_the_signal_witness :
  run_periodic_check net_unlocked bot_ok (world_of store_text)
  = run_periodic_check net_500 bot_ok (world_of store_text).
Proof.
  apply (sweep_sees_only_the_signal MiniJson.loads net_unlocked bot_ok clock
           MiniJson.int_of_str MiniJson.str_of_other net_500).
  intros lg r. vm_compute. reflexivity.
Defined.

Lemma sweep_ignores_interval_witness :
  run_periodic_check_on net_unlocked bot_ok
    (PyDict
       (dict_set "chats"
          (PyDict (map (fun it => (fst it, with_interval (PyInt 60) (snd it)))
                     chats2)) store2))
    (world_of store2_text)
  = run_periodic_check_on net_unlocked bot_ok (PyDict store2)
      (world_of store2_text).
Proof.
  apply (sweep_ignores_interval MiniJson.loads net_unlocked bot_ok clock
           MiniJson.int_of_str MiniJson.str_of_other store2 chats2
           (fun _ => PyInt 60) (world_of store2_text)).
  reflexivity.
Defined.

Lemma cmd_add_appends_witness :
  exists d',
    fst (cmd_add MiniJson.loads MiniJson.iterencode disk_ok
           MiniJson.str_of_other MiniStr.strip [" gamer123 "] 1001
           (world_of store_text))
    = Ret ("Đã thêm: " ++ "gamer123")
    /\ data_file
         (snd (cmd_add MiniJson.loads MiniJson.iterencode disk_ok
                 MiniJson.str_of_other MiniStr.strip [" gamer123 "] 1001
                 (world_of store_text)))
       = FContent (join (MiniJson.iterencode d'))
    /\ accounts_of d' "1001" = Some [gamer; gamer].
Proof.
  destruct (cmd_add_appends MiniJson.loads MiniJson.iterencode disk_ok
              MiniJson.str_of_other MiniStr.strip " gamer123 " [] 1001
              (world_of store_text) store
              [("1001", PyDict [("accounts", PyList [gamer]);
                                ("interval_min", PyInt 5)])]
              [gamer])
    as (d' & Hrun & Hacc & _).
  - discriminate.
  - intros t c. reflexivity.
  - vm_compute. reflexivity.
  - reflexivity.
  - left. reflexivity.
  - exists d'. rewrite Hrun. repeat split. exact Hacc.
Defined.

Lemma failed_update_writes_nothing_witness :
  cmd_add MiniJson.loads MiniJson.iterencode disk_ok MiniJson.str_of_other
    MiniStr.strip ["gamer123"] 1001 (world_of "{}")
  = (Raise (mkExn KeyError "chats"), world_of "{}").
Proof.
  apply (proj1 (proj2 (proj2 (proj2
           (failed_update_writes_nothing MiniJson.loads MiniJson.iterencode
              disk_ok MiniJson.str_of_other MiniStr.strip "gamer123" [] 1001
              (world_of "{}") (PyDict []) eq_refl)))) []).
  - reflexivity.
  - reflexivity.
Defined.

Lemma endpoint_commands_set_one_field_witness :
  exists d',
    fst (cmd_setapi MiniJson.loads MiniJson.iterencode disk_ok MiniStr.strip
           ["https://other.example/v2"] (world_of store_text))
    = Ret ("Đã lưu API URL: " ++ "https://other.example/v2")
    /\ api_field d' "url" = Some (PyStr "https://other.example/v2")
    /\ api_field d' "token" = Some token
    /\ top_field d' "chats" = top_field store "chats".
Proof.
  destruct (endpoint_commands_set_one_field MiniJson.loads MiniJson.iterencode
              disk_ok MiniStr.strip "https://other.example/v2" []
              (world_of store_text) store [("url", url); ("token", token)])
    as [(d' & Hrun & Hurl & Hrest & Htop) _].
  - discriminate.
  - intros t c. reflexivity.
  - vm_compute. reflexivity.
  - reflexivity.
  - exists d'. rewrite Hrun. repeat split.
    + exact Hurl.
    + rewrite (Hrest "token") by discriminate. reflexivity.
    + apply Htop. discriminate.
Defined.

Lemma fresh_install_flow_witness :
  posts
    (log
       (snd
          (run_periodic_check net_down bot_ok
             (snd
                ((cmd_setapi MiniJson.loads MiniJson.iterencode disk_ok
                    MiniStr.strip [" https://api.example/check "] ;;;
                  cmd_settoken MiniJson.loads MiniJson.iterencode disk_ok
                    MiniStr.strip ["secret"] ;;;
                  cmd_add MiniJson.loads MiniJson.iterencode disk_ok
                    MiniJson.str_of_other MiniStr.strip ["gamer123"] 1001)
                   fresh)))))
  = [mkRequest url token gamer 20].
Proof.
  destruct (fresh_install_flow MiniJson.loads MiniJson.iterencode disk_ok
              net_down bot_ok clock MiniJson.int_of_str
              MiniJson.str_of_other MiniStr.strip
              " https://api.example/check " "secret" "gamer123" 1001 fresh
              eq_refl (fun _ _ => eq_refl))
    as [_ Hposts].
  - vm_compute. discriminate.
  - vm_compute. discriminate.
  - vm_compute. reflexivity.
  - vm_compute. reflexivity.
  - vm_compute. reflexivity.
  - exact Hposts.
Defined.

Lemma format_notification_injective_witness :
  format_notification "alpha" true (clock [])
  <> format_notification "beta" true (clock []).
Proof.
  apply (proj1 (format_notification_injective "alpha" "beta" true (clock []))).
  discriminate.
Defined.

Lemma probe_unparsable_body_witness :
  fst (probe (fun _ _ => NetResp 502 "<html>Bad Gateway</html>") url token gamer
         (world_of store_text))
  = Ret (mkOut false false (PyStr "<html>Bad Gateway</html>") (PyInt 502)).
Proof.
  apply (probe_unparsable_body MiniJson.loads
           (fun _ _ => NetResp 502 "<html>Bad Gateway</html>") url token gamer
           (world_of store_text) 502 "<html>Bad Gateway</html>");
    reflexivity.
Defined.

Lemma probe_unlocked_is_truthiness_witness :
  unlocked (mkOut true true (PyDict [("unlocked", PyStr "false")]) (PyInt 200))
  = true.
Proof.
  apply (proj2 (probe_unlocked_is_truthiness MiniJson.loads
                  (fun _ _ => NetResp 200 (MiniJson.js "{'unlocked': 'false'}"))
                  url token gamer (world_of store_text) 200
                  (MiniJson.js "{'unlocked': 'false'}")
                  (PyDict [("unlocked", PyStr "false")]) (PyStr "false")
                  (mkOut true true (PyDict [("unlocked", PyStr "false")])
                     (PyInt 200))
                  eq_refl eq_refl eq_refl eq_refl
                  (ex_intro _ [("unlocked", PyStr "false")]
                     (conj eq_refl eq_refl))
                  eq_refl) "false" eq_refl).
  discriminate.
Defined.

Lemma cmd_add_resets_corrupt_file_witness :
  cmd_add MiniJson.loads MiniJson.iterencode disk_ok MiniJson.str_of_other
    MiniStr.strip ["gamer123"] 1001 (world_of "{'chats': ")
  = (Ret ("Đã thêm: " ++ "gamer123"),
     mkWorld
       (FContent
          (join (MiniJson.iterencode
                   (store_with EmptyString EmptyString
                      [("1001", one_account_cfg "gamer123")]))))
       []).
Proof.
  apply (cmd_add_resets_corrupt_file MiniJson.loads MiniJson.iterencode disk_ok
           MiniJson.str_of_other MiniStr.strip "gamer123" [] 1001
           (world_of "{'chats': ") "{'chats': ").
  - reflexivity.
  - reflexivity.
  - intros t c. reflexivity.
Defined.

Lemma endpoint_commands_commute_witness :
  snd ((cmd_setapi MiniJson.loads MiniJson.iterencode disk_ok MiniStr.strip
          ["https://api.example/check"] ;;;
        cmd_settoken MiniJson.loads MiniJson.iterencode disk_ok MiniStr.strip
          ["secret"]) fresh)
  = snd ((cmd_settoken MiniJson.loads MiniJson.iterencode disk_ok MiniStr.strip
            ["secret"] ;;;
          cmd_setapi MiniJson.loads MiniJson.iterencode disk_ok MiniStr.strip
            ["https://api.example/check"]) fresh).
Proof.
  destruct (endpoint_commands_commute MiniJson.loads MiniJson.iterencode
              disk_ok MiniStr.strip EmptyString EmptyString []
              "https://api.example/check" "secret" fresh)
    as [Hsame _].
  - discriminate.
  - intros t c. reflexivity.
  - reflexivity.
  - vm_compute. reflexivity.
  - vm_compute. reflexivity.
  - exact Hsame.
Defined.
